(** * Vehicle tracker of [track.py]: a shallow embedding and its properties

    The development follows the layout of [track.py]: the geometry classes
    [Point] and [Box], the tracked object [Vehicle], the history record
    [Frame] and the per-frame driver [Tracker].  Python integers are [Z],
    heat-map cells are rationals, the two [deque]s are lists whose head is
    the left end, and a Python exception is the [None] of the option monad.
    The product of the per-frame threshold and the number of frames is a
    float product: binary64, rounded to nearest, then truncated by [int].

    Part 1 holds the definitions, part 2 the lemmas and theorems of the
    specification's claims, part 3 further properties of the code. *)

From Stdlib Require Import ZArith QArith Qround Reals Lia Lra List Permutation.
From Stdlib Require Import SpecFloat.
From stdpp Require Import base option list.

Local Open Scope Z_scope.

(* ===================================================================== *)
(** * Part 1: definitions *)
(* ===================================================================== *)

(** A box as the detector and the labeller hand it over:
    [((x0, y0), (x1, y1))]. *)
Definition BoxTuple : Type := (Z * Z) * (Z * Z).

(** ** class Point *)
Module Point.

Record t : Type := mk { x : Z; y : Z }.

#[global] Instance point_eq_dec : EqDecision t.
Proof. solve_decision. Defined.

(** The radicand of [get_distance]; an exact Python integer. *)
Definition get_distance_sq (self other : t) : Z :=
  (x self - x other) ^ 2 + (y self - y other) ^ 2.

(** [math.sqrt((self.x - other.x) ** 2 + (self.y - other.y) ** 2)],
    over the reals. *)
Definition get_distance (self other : t) : R :=
  sqrt (IZR (get_distance_sq self other)).

End Point.

(** [get_center(a, b)]; [//] is floor division, as [Z.div]. *)
Definition get_center (a b : Point.t) : Point.t :=
  Point.mk ((Point.x a + Point.x b) / 2) ((Point.y a + Point.y b) / 2).

(** ** class Box *)
Module Box.

Record t : Type :=
  mk { top_left : Point.t; bottom_right : Point.t; center : Point.t }.

#[global] Instance box_eq_dec : EqDecision t.
Proof. solve_decision. Defined.

(** [Box.__init__(self, tuple)] *)
Definition init (tuple : BoxTuple) : t :=
  let tl := Point.mk tuple.1.1 tuple.1.2 in
  let br := Point.mk tuple.2.1 tuple.2.2 in
  mk tl br (get_center tl br).

Definition get_area (self : t) : Z :=
  let width := Point.x (bottom_right self) - Point.x (top_left self) in
  let height := Point.y (bottom_right self) - Point.y (top_left self) in
  width * height.

Definition get_overlap_area (self other : t) : Z :=
  let x_overlap :=
    Z.max 0 (Z.min (Point.x (bottom_right self)) (Point.x (bottom_right other))
             - Z.max (Point.x (top_left self)) (Point.x (top_left other))) in
  let y_overlap :=
    Z.max 0 (Z.min (Point.y (bottom_right self)) (Point.y (bottom_right other))
             - Z.max (Point.y (top_left self)) (Point.y (top_left other))) in
  x_overlap * y_overlap.

Definition as_tuple (self : t) : BoxTuple :=
  ((Point.x (top_left self), Point.y (top_left self)),
   (Point.x (bottom_right self), Point.y (bottom_right self))).

Definition get_center_distance (self other : t) : R :=
  Point.get_distance (center self) (center other).

(** The test [self.get_center_distance(other) < r] for an integer radius
    [r], decided on the integer radicand: for [0 <= r] the square root of
    [d] is below [r] exactly when [d < r * r]
    (lemma [center_distance_lt_spec] of part 2).  The float of
    [math.sqrt] agrees with it for pixel coordinates: the square root is
    rounded monotonically and [sqrt(400)] is the float 20 itself. *)
Definition center_distance_lt (self other : t) (r : Z) : bool :=
  Point.get_distance_sq (center self) (center other) <? r * r.

End Box.

(** ** class Vehicle *)
Module Vehicle.

(** [box] is [None] once the object is pending removal; [boxes] is the
    deque of claimed boxes, most recent first. *)
Record t : Type :=
  mk { box : option Box.t;
       window_size : Z;
       boxes : list Box.t;
       frames_since_detected : Z;
       frames_detected : Z }.

#[global] Instance vehicle_eq_dec : EqDecision t.
Proof. solve_decision. Defined.

(** [Vehicle.__init__(self, box, window_size)] *)
Definition init (b : Box.t) (ws : Z) : t :=
  mk (Some b) ws [b] 0 1.

(** [avg_box[i][j] += b[i][j]] for the four coordinates. *)
Definition add_tuple (avg_box b : BoxTuple) : BoxTuple :=
  ((avg_box.1.1 + b.1.1, avg_box.1.2 + b.1.2),
   (avg_box.2.1 + b.2.1, avg_box.2.2 + b.2.2)).

(** [update_box]: the two loops of the source; [//= len(self.boxes)]
    raises [ZeroDivisionError] on an empty deque. *)
Definition update_box (self : t) : option t :=
  let avg_box :=
    fold_left (fun acc b => add_tuple acc (Box.as_tuple b))
              (boxes self) ((0, 0), (0, 0)) in
  let n := Z.of_nat (length (boxes self)) in
  if n =? 0 then None
  else
    let avg_box := ((avg_box.1.1 / n, avg_box.1.2 / n),
                    (avg_box.2.1 / n, avg_box.2.2 / n)) in
    Some (mk (Some (Box.init avg_box)) (window_size self) (boxes self)
             (frames_since_detected self) (frames_detected self)).

(** The claim test of [check_ownership_single]. *)
Definition owns (b other : Box.t) : bool :=
  (0 <? Box.get_overlap_area b other) || Box.center_distance_lt b other 20.

(** [check_ownership_single]: [self.box.get_overlap_area] raises
    [AttributeError] when [self.box] is [None]; [appendleft] is a cons,
    [pop] drops the right end. *)
Definition check_ownership_single (self : t) (other : Box.t)
  : option (t * bool) :=
  b ← box self;
  if owns b other then
    let bs := other :: boxes self in
    let bs := if window_size self <? Z.of_nat (length bs)
              then removelast bs else bs in
    self' ← update_box (mk (box self) (window_size self) bs
                           (frames_since_detected self)
                           (frames_detected self));
    Some (self', true)
  else Some (self, false).

(** First loop of [check_ownership]:
    [claimed.append(self.check_ownership_single(box))]. *)
Fixpoint claim_each (self : t) (bxs : list Box.t) : option (t * list bool) :=
  match bxs with
  | [] => Some (self, [])
  | b :: bxs' =>
      r ← check_ownership_single self b;
      rs ← claim_each r.1 bxs';
      Some (rs.1, r.2 :: rs.2)
  end.

(** [check_ownership]: the second loop returns at the first true flag. *)
Definition check_ownership (self : t) (bxs : list Box.t)
  : option (t * list bool) :=
  r ← claim_each self bxs;
  let self := r.1 in
  let claimed := r.2 in
  if existsb (fun c => c) claimed then
    Some (mk (box self) (window_size self) (boxes self)
             0 (frames_detected self + 1), claimed)
  else
    let fsd := frames_since_detected self + 1 in
    if window_size self <? fsd then
      Some (mk None (window_size self) (boxes self) fsd 0, claimed)
    else
      Some (mk (box self) (window_size self) (boxes self)
               fsd (frames_detected self), claimed).

End Vehicle.

(** ** Heat maps *)

(** A heat map is a two-dimensional array, row [y] and column [x]; the
    cells are rationals.  A [numpy] array is rectangular; the functions
    below do not depend on it. *)
Abbreviation Grid := (list (list Q)).

(** The shape of an array, row by row. *)
Definition shape (g : Grid) : list nat := map length g.

(** [a + b] on arrays of one shape; arrays of different shapes have no
    element-wise sum. *)
Definition grid_add (a b : Grid) : option Grid :=
  if decide (shape a = shape b)
  then Some (zip_with (zip_with Qplus) a b) else None.

Fixpoint grid_add_all (acc : Grid) (hs : list Grid) : option Grid :=
  match hs with
  | [] => Some acc
  | h :: hs' => acc' ← grid_add acc h; grid_add_all acc' hs'
  end.

(** [np.sum(heatmaps, axis = 0)] for a list of arrays.  On the empty list
    [numpy] returns the scalar [0.0], which is not an array that can be
    sliced, assigned into or labelled; the embedding stops there.  The
    list is empty only for a tracker built with a heat-map window below
    1, since [add_frame] runs first. *)
Definition np_sum_axis0 (heatmaps : list Grid) : option Grid :=
  match heatmaps with
  | [] => None
  | h :: hs => grid_add_all h hs
  end.

(** A bound of a [numpy] slice on an axis of length [n]: a negative bound
    counts from the end, and every bound is clipped to [0 .. n]. *)
Definition slice_bound (n : nat) (i : Z) : Z :=
  if i <? 0 then Z.max 0 (i + Z.of_nat n) else Z.min i (Z.of_nat n).

(** Index [k] of an axis of length [n] lies in the slice [start : stop]. *)
Definition in_slice (n : nat) (start stop : Z) (k : nat) : bool :=
  (slice_bound n start <=? Z.of_nat k) && (Z.of_nat k <? slice_bound n stop).

(** [heatmap[y0 : y1, x0 : x1] *= 3] *)
Definition mul_slice (heatmap : Grid) (y0 y1 x0 x1 : Z) : Grid :=
  imap (fun yi row =>
          if in_slice (length heatmap) y0 y1 yi
          then imap (fun xi c =>
                       if in_slice (length row) x0 x1 xi then (c * 3)%Q else c)
                    row
          else row)
       heatmap.

(** Python's [int] of a number: truncation toward zero. *)
Definition int (q : Q) : Z := Z.quot (Qnum q) (Zpos (Qden q)).

(** ** Python floats

    A Python float is an IEEE 754 binary64 number, 53 bits of precision
    and exponent bound 1024; every operation rounds to nearest, ties to
    even.  The operations are those of the standard library's
    specification of floating-point arithmetic. *)

(** [float(z)] for an integer [z]. *)
Definition float_of_Z (z : Z) : spec_float :=
  binary_normalize 53 1024 z 0 false.

(** The float a number written as [num / den] denotes: the quotient of the
    two integers, rounded once.  For a numerator and a denominator below
    [2 ^ 53] this is the double nearest to the number, as Python reads the
    literal [1.7]. *)
Definition float_of_Q (q : Q) : spec_float :=
  SFdiv 53 1024 (float_of_Z (Qnum q)) (float_of_Z (Zpos (Qden q))).

(** [x * y] on floats. *)
Definition float_mul (x y : spec_float) : spec_float := SFmul 53 1024 x y.

(** The rational a finite float stands for; an infinity and a nan stand
    for none. *)
Definition float_value (f : spec_float) : option Q :=
  match f with
  | S754_zero _ => Some 0%Q
  | S754_finite s m e =>
      let n := if s then Zneg m else Zpos m in
      Some (if 0 <=? e then inject_Z (n * 2 ^ e)
            else Qmake n (2 ^ Z.to_pos (- e)))
  | S754_infinity _ | S754_nan => None
  end.

(** [int(f)] for a float [f].  On an infinity Python raises
    [OverflowError] and on a nan [ValueError]; the product of a per-frame
    threshold and a frame count is neither unless the threshold is beyond
    [1e300], and the embedding does not follow the program there. *)
Definition int_of_float (f : spec_float) : Z :=
  match float_value f with
  | Some q => int q
  | None => 0
  end.

(** [int(tpf * n)] for the float [tpf] and the integer [n]: Python converts
    [n] to a float, rounds the product to a float and truncates it. *)
Definition threshold_of (tpf : Q) (n : nat) : Z :=
  int_of_float (float_mul (float_of_Q tpf) (float_of_Z (Z.of_nat n))).

(** Modelled from the spec: [sr.apply_threshold] lives in [search.py], which
    is not part of the sources at hand.  Section 4.2 of the specification:
    zero out every cell with value at most the threshold. *)
Definition apply_threshold (heatmap : Grid) (threshold : Z) : Grid :=
  map (map (fun c => if Qle_bool c (inject_Z threshold) then 0%Q else c))
      heatmap.

(** ** class Frame *)
Module Frame.

Record t : Type := mk { heatmap : Grid; label_boxes : list BoxTuple }.

End Frame.

(** ** class Tracker *)
Module Tracker.

(** The searcher and its parameters are opaque to the tracker and are
    left out of the state; [track] receives the search result. *)
Record t : Type :=
  mk { heatmap_window_size : Z;
       heatmap_threshold_per_frame : Q;
       vehicle_window_size : Z;
       frames : list Frame.t;
       smoothed_frames : list Frame.t;
       vehicles : list Vehicle.t;
       heatmap_boxes_count : Z }.

(** [Tracker.__init__]: five assignments of the arguments and four
    empty containers; nothing is checked and nothing can raise. *)
Definition init (heatmap_window_size : Z) (heatmap_threshold_per_frame : Q)
    (vehicle_window_size : Z) : option t :=
  Some (mk heatmap_window_size heatmap_threshold_per_frame
           vehicle_window_size [] [] [] 0).

Definition set_vehicles (self : t) (vs : list Vehicle.t) : t :=
  mk (heatmap_window_size self) (heatmap_threshold_per_frame self)
     (vehicle_window_size self) (frames self) (smoothed_frames self)
     vs (heatmap_boxes_count self).

Definition set_heatmap_boxes_count (self : t) (n : Z) : t :=
  mk (heatmap_window_size self) (heatmap_threshold_per_frame self)
     (vehicle_window_size self) (frames self) (smoothed_frames self)
     (vehicles self) n.

(** [appendleft] followed by the conditional [pop] of both histories. *)
Definition push_bounded (f : Frame.t) (history : list Frame.t) (size : Z)
  : list Frame.t :=
  let history := f :: history in
  if size <? Z.of_nat (length history) then removelast history else history.

Definition add_frame (search_result : Grid * list BoxTuple) (self : t) : t :=
  let heatmap := search_result.1 in
  let label_boxes := search_result.2 in
  mk (heatmap_window_size self) (heatmap_threshold_per_frame self)
     (vehicle_window_size self)
     (push_bounded (Frame.mk heatmap label_boxes) (frames self)
                   (heatmap_window_size self))
     (smoothed_frames self) (vehicles self) (heatmap_boxes_count self).

Definition add_smoothed_frame (heatmap : Grid) (boxes : list BoxTuple)
    (self : t) : t :=
  mk (heatmap_window_size self) (heatmap_threshold_per_frame self)
     (vehicle_window_size self) (frames self)
     (push_bounded (Frame.mk heatmap boxes) (smoothed_frames self)
                   (heatmap_window_size self))
     (vehicles self) (heatmap_boxes_count self).

(** [boost_heatmap]: [b.top_left] raises [AttributeError] when the box
    of a vehicle with more than 24 detected frames is [None]. *)
Fixpoint boost_heatmap (heatmap : Grid) (vs : list Vehicle.t)
  : option Grid :=
  match vs with
  | [] => Some heatmap
  | vehicle :: vs' =>
      if 24 <? Vehicle.frames_detected vehicle then
        b ← Vehicle.box vehicle;
        boost_heatmap
          (mul_slice heatmap
             (Point.y (Box.top_left b)) (Point.y (Box.bottom_right b))
             (Point.x (Box.top_left b)) (Point.x (Box.bottom_right b)))
          vs'
      else boost_heatmap heatmap vs'
  end.

(** The argument [int(self.heatmap_threshold_per_frame * len(self.frames))]
    of [sr.apply_threshold]: the float product, truncated. *)
Definition threshold (self : t) : Z :=
  threshold_of (heatmap_threshold_per_frame self) (length (frames self)).

(** The loop of [check_box_change] over the smoothed history: [true]
    when the loop ends by [break] or by exhausting the deque, so that the
    reset after it runs; [false] when the loop body returns. *)
Fixpoint count_settled (n : Z) (i : Z) (fs : list Frame.t) : bool :=
  match fs with
  | [] => true
  | f :: fs' =>
      if 3 <=? i then true
      else if negb (n =? Z.of_nat (length (Frame.label_boxes f))) then false
      else count_settled n (i + 1) fs'
  end.

Definition reset_vehicles (self : t) : t := set_vehicles self [].

Definition check_box_change (boxes : list BoxTuple) (self : t) : t :=
  let n := Z.of_nat (length boxes) in
  if negb (n =? heatmap_boxes_count self) then
    if count_settled n 0 (smoothed_frames self)
    then set_heatmap_boxes_count (reset_vehicles self) n
    else self
  else self.

(** First loop of [update_vehicles]: every vehicle of the list, in order,
    tries every box; the flags are or-ed position by position. *)
Fixpoint claim_pass (vs : list Vehicle.t) (boxes : list Box.t)
    (claimed : list bool) : option (list Vehicle.t * list bool) :=
  match vs with
  | [] => Some ([], claimed)
  | vehicle :: vs' =>
      r ← Vehicle.check_ownership vehicle boxes;
      rs ← claim_pass vs' boxes (zip_with orb claimed r.2);
      Some (r.1 :: rs.1, rs.2)
  end.

(** Second loop of [update_vehicles], over [zip(claimed, boxes)]. *)
Fixpoint spawn (ws : Z) (claimed : list bool) (boxes : list Box.t)
  : list Vehicle.t :=
  match claimed, boxes with
  | c :: claimed', box :: boxes' =>
      if negb c then Vehicle.init box ws :: spawn ws claimed' boxes'
      else spawn ws claimed' boxes'
  | _, _ => []
  end.

Definition update_vehicles (box_tuples : list BoxTuple) (self : t)
  : option t :=
  let boxes := map Box.init box_tuples in
  let claimed := replicate (length boxes) false in
  r ← claim_pass (vehicles self) boxes claimed;
  Some (set_vehicles self
          (r.1 ++ spawn (vehicle_window_size self) r.2 boxes)).

(** [list.remove(x)]: drop the first element equal to [x].  Python
    compares vehicles by identity; equality of the fields removes the same
    elements here, since every vehicle to remove comes from the list and
    all of them lack a box ([remove_vehicles_filter] of part 2). *)
Fixpoint list_remove (x : Vehicle.t) (l : list Vehicle.t)
  : list Vehicle.t :=
  match l with
  | [] => []
  | y :: l' => if decide (y = x) then l' else y :: list_remove x l'
  end.

(** [remove_vehicles]: collect the vehicles whose box is [None], then
    remove them one by one. *)
Definition remove_vehicles (self : t) : t :=
  let removal_list :=
    filter (fun vehicle => Vehicle.box vehicle = None) (vehicles self) in
  set_vehicles self
    (fold_left (fun vs vehicle => list_remove vehicle vs)
               removal_list (vehicles self)).

(** The boxes [draw_vehicle_boxes] hands to the renderer. *)
Definition draw_vehicle_boxes (self : t) : list BoxTuple :=
  omap (fun vehicle => Box.as_tuple <$> Vehicle.box vehicle) (vehicles self).

Section WithLabeller.

(** [sr.convert_to_bboxes(label(heatmap))]: connected-region labelling
    and the bounding boxes of the regions, both outside the tracker. *)
Variable label_bboxes : Grid -> list BoxTuple.

Definition smooth_heatmaps (self : t) : option (Grid * list BoxTuple) :=
  heatmap ← np_sum_axis0 (map Frame.heatmap (frames self));
  heatmap ← boost_heatmap heatmap (vehicles self);
  let heatmap := apply_threshold heatmap (threshold self) in
  Some (heatmap, label_bboxes heatmap).

(** [track]: the search result of the frame comes in, the tracker
    after the frame and the boxes to draw come out. *)
Definition track (search_result : Grid * list BoxTuple) (self : t)
  : option (t * list BoxTuple) :=
  let self := add_frame search_result self in
  r ← smooth_heatmaps self;
  let self := add_smoothed_frame r.1 r.2 self in
  let self := check_box_change r.2 self in
  self ← update_vehicles r.2 self;
  let self := remove_vehicles self in
  Some (self, draw_vehicle_boxes self).

(** Tracker states that a run of [track] calls can produce. *)
Inductive reachable (hws : Z) (tpf : Q) (vws : Z) : t -> Prop :=
| reachable_init self :
    init hws tpf vws = Some self -> reachable hws tpf vws self
| reachable_track self search_result self' drawn :
    reachable hws tpf vws self ->
    track search_result self = Some (self', drawn) ->
    reachable hws tpf vws self'.

End WithLabeller.

End Tracker.

(** ** Notions used to state the properties *)

(** The cell of row [yi] and column [xi], when the array has one. *)
Definition cell (g : Grid) (yi xi : nat) : option Q :=
  row ← g !! yi; row !! xi.

(** The sum of one coordinate over a window of boxes. *)
Definition coordinate_sum (f : Box.t -> Z) (w : list Box.t) : Z :=
  foldr (fun b s => f b + s) 0 w.

(** The corner-wise integer mean of a window: each of the four coordinates
    is summed over the window and floor-divided by the window length. *)
Definition corner_mean (w : list Box.t) : BoxTuple :=
  let n := Z.of_nat (length w) in
  ((coordinate_sum (fun b => Point.x (Box.top_left b)) w / n,
    coordinate_sum (fun b => Point.y (Box.top_left b)) w / n),
   (coordinate_sum (fun b => Point.x (Box.bottom_right b)) w / n,
    coordinate_sum (fun b => Point.y (Box.bottom_right b)) w / n)).

(** The window after [appendleft] and the conditional [pop]. *)
Definition pushed_window (ws : Z) (other : Box.t) (w : list Box.t)
  : list Box.t :=
  if ws <? Z.of_nat (length (other :: w))
  then removelast (other :: w) else other :: w.

(** A live vehicle: it has a box and its window is not empty. *)
Definition live (v : Vehicle.t) : Prop :=
  Vehicle.box v <> None /\ Vehicle.boxes v <> [].

(** A vehicle as a [check_ownership] call of a tracker with vehicle window
    size [vws] leaves it; it may have lost its box. *)
Definition vehicle_kept (vws : Z) (v : Vehicle.t) : Prop :=
  Vehicle.boxes v <> [] /\
  Vehicle.window_size v = vws /\
  (0 < vws -> Z.of_nat (length (Vehicle.boxes v)) <= vws).

(** A vehicle of the object list between two [track] calls. *)
Definition vehicle_ok (vws : Z) (v : Vehicle.t) : Prop :=
  Vehicle.box v <> None /\ vehicle_kept vws v.

(** What the tracker built with [(hws, tpf, vws)] satisfies between two
    [track] calls. *)
Definition tracker_inv (hws : Z) (tpf : Q) (vws : Z) (self : Tracker.t)
  : Prop :=
  Tracker.heatmap_window_size self = hws /\
  Tracker.heatmap_threshold_per_frame self = tpf /\
  Tracker.vehicle_window_size self = vws /\
  Forall (vehicle_ok vws) (Tracker.vehicles self) /\
  (0 <= hws ->
   Z.of_nat (length (Tracker.frames self)) <= hws /\
   Z.of_nat (length (Tracker.smoothed_frames self)) <= hws).

(** The number of boxes of a history entry. *)
Definition box_count (f : Frame.t) : Z :=
  Z.of_nat (length (Frame.label_boxes f)).

(** The entries of the smoothed history that [check_box_change] can
    inspect: the three most recent ones. *)
Definition inspected (self : Tracker.t) : list Frame.t :=
  take 3 (Tracker.smoothed_frames self).

(** Steps 4 and 5 of a [track] call: the smoothed frame is pushed, then
    the box count is checked. *)
Definition stabilize (heatmap : Grid) (boxes : list BoxTuple)
    (self : Tracker.t) : Tracker.t :=
  Tracker.check_box_change boxes (Tracker.add_smoothed_frame heatmap boxes self).

(** The successive [check_ownership] calls one vehicle receives, one per
    frame, each with the candidate boxes of that frame. *)
Fixpoint update_for_frames (self : Vehicle.t) (fs : list (list Box.t))
  : option Vehicle.t :=
  match fs with
  | [] => Some self
  | bxs :: fs' =>
      r ← Vehicle.check_ownership self bxs; update_for_frames r.1 fs'
  end.

(** A video: [track] on every search result in turn, as [process_video]
    drives it through [process_img]. *)
Fixpoint track_all (label_bboxes : Grid -> list BoxTuple)
    (search_results : list (Grid * list BoxTuple)) (self : Tracker.t)
  : option Tracker.t :=
  match search_results with
  | [] => Some self
  | search_result :: rest =>
      r ← Tracker.track label_bboxes search_result self;
      track_all label_bboxes rest r.1
  end.

(** Cell [(yi, xi)] lies in the rectangle of box [b]: rows from the top
    edge up to, not including, the bottom edge, and columns likewise. *)
Definition in_box (b : Box.t) (yi xi : nat) : bool :=
  (Point.y (Box.top_left b) <=? Z.of_nat yi)
  && (Z.of_nat yi <? Point.y (Box.bottom_right b))
  && (Point.x (Box.top_left b) <=? Z.of_nat xi)
  && (Z.of_nat xi <? Point.x (Box.bottom_right b)).

(** Vehicle [v] is boosted and its box covers cell [(yi, xi)]. *)
Definition boosts (yi xi : nat) (v : Vehicle.t) : bool :=
  (24 <? Vehicle.frames_detected v)
  && match Vehicle.box v with
     | Some b => in_box b yi xi
     | None => false
     end.

(** The number of boosted vehicles of [vs] whose box covers the cell. *)
Definition boost_count (vs : list Vehicle.t) (yi xi : nat) : nat :=
  length (List.filter (boosts yi xi) vs).

(** [c *= 3] *)
Definition times3 (c : Q) : Q := (c * 3)%Q.

(** All four coordinates of a box are image coordinates. *)
Definition nonneg_box (b : Box.t) : Prop :=
  0 <= Point.x (Box.top_left b) /\ 0 <= Point.y (Box.top_left b) /\
  0 <= Point.x (Box.bottom_right b) /\ 0 <= Point.y (Box.bottom_right b).

(** Box [i] was claimed by one of the vehicles whose flag lists are
    [flags]. *)
Definition claimed_by_some (flags : list (list bool)) (i : nat) : bool :=
  existsb (fun fl => default false (fl !! i)) flags.

(** The boxes no vehicle claimed, in their order. *)
Definition unclaimed_boxes (flags : list (list bool)) (boxes : list Box.t)
  : list Box.t :=
  omap (fun ib => if claimed_by_some flags ib.1 then None else Some ib.2)
       (imap pair boxes).

(** *** The statements of the specification that the code does not meet *)

(** Section 4.3 as worded: on a changed count the objects are cleared
    exactly when every inspected entry differs from the new count. *)
Definition stabilization_as_specified (boxes : list BoxTuple)
    (self : Tracker.t) : Prop :=
  let n := Z.of_nat (length boxes) in
  let self' := Tracker.check_box_change boxes self in
  n <> Tracker.heatmap_boxes_count self ->
  (Forall (fun f => box_count f <> n) (inspected self) ->
   Tracker.vehicles self' = [] /\ Tracker.heatmap_boxes_count self' = n) /\
  (~ Forall (fun f => box_count f <> n) (inspected self) ->
   Tracker.vehicles self' = Tracker.vehicles self /\
   Tracker.heatmap_boxes_count self' = Tracker.heatmap_boxes_count self).

(** Section 4.2, step 3, as worded: a cell survives exactly when it is
    above the product of the per-frame threshold and the number of frames. *)
Definition thresholding_as_specified (label_bboxes : Grid -> list BoxTuple)
    (self : Tracker.t) : Prop :=
  forall summed boosted out boxes yi xi c,
    np_sum_axis0 (map Frame.heatmap (Tracker.frames self)) = Some summed ->
    Tracker.boost_heatmap summed (Tracker.vehicles self) = Some boosted ->
    Tracker.smooth_heatmaps label_bboxes self = Some (out, boxes) ->
    cell boosted yi xi = Some c ->
    exists c', cell out yi xi = Some c' /\
      (c' == if Qle_bool c (Tracker.heatmap_threshold_per_frame self
                            * inject_Z (Z.of_nat (length (Tracker.frames self))))
             then 0 else c)%Q.

(** Section 7 as worded: a non-positive parameter is rejected when the
    tracker is constructed. *)
Definition invalid_configuration_rejected : Prop :=
  forall (hws : Z) (tpf : Q) (vws : Z),
    hws <= 0 \/ vws <= 0 \/ (tpf <= 0)%Q ->
    Tracker.init hws tpf vws = None.

(** *** Concrete inputs *)

Definition box_0_10 : Box.t := Box.init ((0, 0), (10, 10)).
Definition box_2_12 : Box.t := Box.init ((2, 2), (12, 12)).
Definition box_8_30 : Box.t := Box.init ((8, 0), (30, 10)).
Definition box_15_40 : Box.t := Box.init ((15, 0), (40, 10)).
Definition box_far : Box.t := Box.init ((100, 100), (120, 120)).

(** A vehicle as [update_vehicles] creates it, with window size 7. *)
Definition vehicle_0_10 : Vehicle.t := Vehicle.init box_0_10 7.

(** A smoothed-history entry with [n] boxes. *)
Definition frame_with (n : nat) : Frame.t :=
  Frame.mk [[0%Q]] (replicate n ((0, 0), (1, 1))).

Definition three_boxes : list BoxTuple := replicate 3 ((0, 0), (1, 1)).

(** The stable count is 2 and the last frames had 2 boxes. *)
Definition tracker_stable_2 : Tracker.t :=
  Tracker.mk 10 (17 # 10)%Q 7 [] [frame_with 2; frame_with 2]
    [vehicle_0_10] 2.

(** The stable count is 2, and the current frame is the third in a row
    with 3 boxes; [add_smoothed_frame] has pushed it already. *)
Definition tracker_third_3 : Tracker.t :=
  Tracker.mk 10 (17 # 10)%Q 7 []
    [frame_with 3; frame_with 3; frame_with 3; frame_with 2]
    [vehicle_0_10] 2.

(** A 3 x 4 array of ones. *)
Definition ones_3x4 : Grid :=
  [[1; 1; 1; 1]; [1; 1; 1; 1]; [1; 1; 1; 1]]%Q.

(** A vehicle detected on 25 frames, with the box [((1,0),(3,2))]. *)
Definition vehicle_25 : Vehicle.t :=
  Vehicle.mk (Some (Box.init ((1, 0), (3, 2)))) 7
    [Box.init ((1, 0), (3, 2))] 0 25.

(** A vehicle detected on 24 frames, with a box over the whole array. *)
Definition vehicle_24 : Vehicle.t :=
  Vehicle.mk (Some (Box.init ((0, 0), (4, 3)))) 7
    [Box.init ((0, 0), (4, 3))] 0 24.

(** Threshold 1.7 per frame and five buffered 1 x 2 heat maps that add up
    to 9 and 8; no vehicles. *)
Definition tracker_heat_9_8 : Tracker.t :=
  Tracker.mk 10 (17 # 10)%Q 7
    [Frame.mk [[9%Q; 8%Q]] []; Frame.mk [[0%Q; 0%Q]] [];
     Frame.mk [[0%Q; 0%Q]] []; Frame.mk [[0%Q; 0%Q]] [];
     Frame.mk [[0%Q; 0%Q]] []]
    [] [] 0.

(** Threshold 1.7 per frame and five buffered 1 x 1 heat maps that add up
    to 8.5; no vehicles. *)
Definition tracker_heat_8_5 : Tracker.t :=
  Tracker.mk 10 (17 # 10)%Q 7
    [Frame.mk [[(17 # 2)%Q]] []; Frame.mk [[0%Q]] []; Frame.mk [[0%Q]] [];
     Frame.mk [[0%Q]] []; Frame.mk [[0%Q]] []]
    [] [] 0.

(** A tracker that holds the vehicle on [((0,0),(10,10))]; the frame has
    a box the vehicle owns and two far boxes that overlap each other. *)
Definition tracker_one_vehicle : Tracker.t :=
  Tracker.mk 10 (17 # 10)%Q 7 [] [] [vehicle_0_10] 1.

Definition boxes_near_far_far : list BoxTuple :=
  [((2, 2), (12, 12)); ((100, 100), (120, 120)); ((105, 105), (125, 125))].

(** A labeller that reports one box whatever the heat map. *)
Definition label_one_box (heatmap : Grid) : list BoxTuple :=
  [((0, 0), (10, 10))].

(** The search result of a 1 x 1 frame with heat 5. *)
Definition search_result_5 : Grid * list BoxTuple :=
  ([[5%Q]], [((0, 0), (10, 10))]).

(** The tracker of the source's driver, [Tracker(searcher, sp, 10, 1.7, 7)],
    after its first frame. *)
Definition tracker_after_one_frame : Tracker.t :=
  Tracker.mk 10 (17 # 10)%Q 7
    [Frame.mk [[5%Q]] [((0, 0), (10, 10))]]
    [Frame.mk [[5%Q]] [((0, 0), (10, 10))]]
    [vehicle_0_10] 1.

(** *** Notions for the properties of the remaining code *)

(** The bottom-right corner is not above or left of the top-left one. *)
Definition well_formed (b : Box.t) : Prop :=
  Point.x (Box.top_left b) <= Point.x (Box.bottom_right b) /\
  Point.y (Box.top_left b) <= Point.y (Box.bottom_right b).

(** What [check_ownership] does to a vehicle on a frame that brings it no
    claim (the lines after the second loop): the absence counter grows by
    one, and past the window size the box and the detection count are
    dropped. *)
Definition missed_frame (v : Vehicle.t) : Vehicle.t :=
  let fsd := Vehicle.frames_since_detected v + 1 in
  if Vehicle.window_size v <? fsd
  then Vehicle.mk None (Vehicle.window_size v) (Vehicle.boxes v) fsd 0
  else Vehicle.mk (Vehicle.box v) (Vehicle.window_size v) (Vehicle.boxes v)
         fsd (Vehicle.frames_detected v).

(** Box [b] lies in the rectangle from [(x_lo, y_lo)] to [(x_hi, y_hi)]. *)
Definition inside (x_lo y_lo x_hi y_hi : Z) (b : Box.t) : Prop :=
  x_lo <= Point.x (Box.top_left b) /\ Point.x (Box.bottom_right b) <= x_hi /\
  y_lo <= Point.y (Box.top_left b) /\ Point.y (Box.bottom_right b) <= y_hi.

(** A vehicle that has lost its box, as [check_ownership] leaves it. *)
Definition vehicle_gone : Vehicle.t := Vehicle.mk None 7 [box_0_10] 8 0.

(** What holds of every vehicle of the object list between two [track]
    calls: the representative box is the corner-wise mean of the window,
    the absence counter is 0 or within the window size, and the vehicle
    has been detected at least once. *)
Definition vehicle_sound (v : Vehicle.t) : Prop :=
  Vehicle.box v = Some (Box.init (corner_mean (Vehicle.boxes v))) /\
  0 <= Vehicle.frames_since_detected v /\
  (Vehicle.frames_since_detected v = 0 \/
   Vehicle.frames_since_detected v <= Vehicle.window_size v) /\
  1 <= Vehicle.frames_detected v.

(** The tracker with another raw history. *)
Definition with_frames (fs : list Frame.t) (self : Tracker.t) : Tracker.t :=
  Tracker.mk (Tracker.heatmap_window_size self)
    (Tracker.heatmap_threshold_per_frame self)
    (Tracker.vehicle_window_size self) fs (Tracker.smoothed_frames self)
    (Tracker.vehicles self) (Tracker.heatmap_boxes_count self).

(** Two trackers that differ at most in the boxes stored beside the heat
    maps of the raw history, the second component of the search results. *)
Definition same_but_raw_boxes (s1 s2 : Tracker.t) : Prop :=
  s2 = with_frames (Tracker.frames s2) s1 /\
  map Frame.heatmap (Tracker.frames s1) = map Frame.heatmap (Tracker.frames s2).

(* ===================================================================== *)
(** * Part 2: lemmas and theorems *)
(* ===================================================================== *)

(** ** Geometry *)

Lemma get_distance_sq_nonneg (a b : Point.t) : 0 <= Point.get_distance_sq a b.
Proof. unfold Point.get_distance_sq. nia. Qed.

(** The integer test decides the comparison of the real distance. *)
Lemma center_distance_lt_spec (a b : Box.t) (r : Z) :
  0 <= r ->
  Box.center_distance_lt a b r = true <-> (Box.get_center_distance a b < IZR r)%R.
Proof.
  intros Hr.
  unfold Box.center_distance_lt, Box.get_center_distance, Point.get_distance.
  set (d := Point.get_distance_sq (Box.center a) (Box.center b)).
  assert (Hd : 0 <= d) by apply get_distance_sq_nonneg.
  assert (Hd' : (0 <= IZR d)%R) by (apply IZR_le in Hd; exact Hd).
  assert (Hr' : (0 <= IZR r)%R) by (apply IZR_le in Hr; exact Hr).
  assert (Hsq : sqrt (IZR (r * r)) = IZR r).
  { rewrite mult_IZR. apply sqrt_square. exact Hr'. }
  rewrite Z.ltb_lt. split.
  - intros Hlt. rewrite <- Hsq. apply sqrt_lt_1_alt. split; [exact Hd'|].
    apply IZR_lt. exact Hlt.
  - intros Hlt. rewrite <- Hsq in Hlt. apply sqrt_lt_0_alt in Hlt.
    apply lt_IZR. exact Hlt.
Qed.

Lemma owns_spec (b other : Box.t) :
  Vehicle.owns b other = true <->
  0 < Box.get_overlap_area b other \/ (Box.get_center_distance b other < 20)%R.
Proof.
  unfold Vehicle.owns. rewrite orb_true_iff, Z.ltb_lt.
  rewrite (center_distance_lt_spec b other 20) by lia. reflexivity.
Qed.

Lemma get_overlap_area_nonneg (a b : Box.t) : 0 <= Box.get_overlap_area a b.
Proof. unfold Box.get_overlap_area. cbv zeta. nia. Qed.

(** ** Vehicle: the window and its mean *)

Lemma fold_add_tuple (w : list Box.t) (acc : BoxTuple) :
  fold_left (fun acc b => Vehicle.add_tuple acc (Box.as_tuple b)) w acc =
  ((acc.1.1 + coordinate_sum (fun b => Point.x (Box.top_left b)) w,
    acc.1.2 + coordinate_sum (fun b => Point.y (Box.top_left b)) w),
   (acc.2.1 + coordinate_sum (fun b => Point.x (Box.bottom_right b)) w,
    acc.2.2 + coordinate_sum (fun b => Point.y (Box.bottom_right b)) w)).
Proof.
  revert acc. induction w as [|b w IH]; intros [[a00 a01] [a10 a11]]; simpl.
  - f_equal; f_equal; lia.
  - rewrite IH. unfold Vehicle.add_tuple, Box.as_tuple. simpl.
    f_equal; f_equal; lia.
Qed.

(** [update_box] succeeds on a non-empty window and stores the corner-wise
    mean. *)
Lemma update_box_mean (self : Vehicle.t) :
  Vehicle.boxes self <> [] ->
  Vehicle.update_box self =
  Some (Vehicle.mk (Some (Box.init (corner_mean (Vehicle.boxes self))))
          (Vehicle.window_size self) (Vehicle.boxes self)
          (Vehicle.frames_since_detected self) (Vehicle.frames_detected self)).
Proof.
  intros Hne. unfold Vehicle.update_box.
  destruct (Z.eqb_spec (Z.of_nat (length (Vehicle.boxes self))) 0) as [E|_].
  - destruct (Vehicle.boxes self); [congruence | simpl in E; lia].
  - rewrite fold_add_tuple. reflexivity.
Qed.

Lemma pushed_window_nonempty ws other w :
  w <> [] -> pushed_window ws other w <> [].
Proof.
  intros Hne. unfold pushed_window. destruct w as [|b w]; [congruence|].
  destruct (_ <? _); simpl; congruence.
Qed.

Lemma removelast_length {A} (l : list A) :
  length (removelast l) = Nat.pred (length l).
Proof.
  induction l as [|a l IH]; [reflexivity|].
  destruct l as [|b l]; [reflexivity|].
  change (removelast (a :: b :: l)) with (a :: removelast (b :: l)).
  simpl length in *. rewrite IH. reflexivity.
Qed.

Lemma pushed_window_length ws other w :
  0 < ws -> Z.of_nat (length w) <= ws ->
  Z.of_nat (length (pushed_window ws other w)) <= ws.
Proof.
  intros Hws Hlen. unfold pushed_window.
  destruct (Z.ltb_spec ws (Z.of_nat (length (other :: w)))) as [Hgt|Hle].
  - rewrite removelast_length. simpl length in *. lia.
  - exact Hle.
Qed.

(** [check_ownership_single] on a live vehicle, as one equation. *)
Lemma check_ownership_single_eq (self : Vehicle.t) (b other : Box.t) :
  Vehicle.box self = Some b ->
  Vehicle.boxes self <> [] ->
  Vehicle.check_ownership_single self other =
  if Vehicle.owns b other then
    let w := pushed_window (Vehicle.window_size self) other (Vehicle.boxes self) in
    Some (Vehicle.mk (Some (Box.init (corner_mean w)))
            (Vehicle.window_size self) w
            (Vehicle.frames_since_detected self) (Vehicle.frames_detected self),
          true)
  else Some (self, false).
Proof.
  intros Hb Hne. unfold Vehicle.check_ownership_single. rewrite Hb. simpl.
  destruct (Vehicle.owns b other); [|reflexivity].
  fold (pushed_window (Vehicle.window_size self) other (Vehicle.boxes self)).
  rewrite update_box_mean by (simpl; apply pushed_window_nonempty, Hne).
  reflexivity.
Qed.

Lemma check_ownership_single_live (self : Vehicle.t) (other : Box.t) :
  live self ->
  exists self' c,
    Vehicle.check_ownership_single self other = Some (self', c) /\
    live self' /\
    Vehicle.window_size self' = Vehicle.window_size self /\
    Vehicle.frames_since_detected self' = Vehicle.frames_since_detected self /\
    Vehicle.frames_detected self' = Vehicle.frames_detected self /\
    (0 < Vehicle.window_size self ->
     Z.of_nat (length (Vehicle.boxes self)) <= Vehicle.window_size self ->
     Z.of_nat (length (Vehicle.boxes self')) <= Vehicle.window_size self).
Proof.
  intros [Hb Hne]. destruct (Vehicle.box self) as [b|] eqn:Eb; [|congruence].
  rewrite (check_ownership_single_eq self b other Eb Hne).
  destruct (Vehicle.owns b other).
  - eexists _, true. split; [reflexivity|]. simpl.
    split; [split; [discriminate | apply pushed_window_nonempty, Hne]|].
    repeat split; try reflexivity. intros. apply pushed_window_length; assumption.
  - exists self, false. split; [reflexivity|].
    split; [split; [rewrite Eb; discriminate | exact Hne]|].
    repeat split; try reflexivity. intros; assumption.
Qed.

Lemma claim_each_live (bxs : list Box.t) (self : Vehicle.t) :
  live self ->
  exists self' claimed,
    Vehicle.claim_each self bxs = Some (self', claimed) /\
    length claimed = length bxs /\
    live self' /\
    Vehicle.window_size self' = Vehicle.window_size self /\
    Vehicle.frames_since_detected self' = Vehicle.frames_since_detected self /\
    Vehicle.frames_detected self' = Vehicle.frames_detected self /\
    (0 < Vehicle.window_size self ->
     Z.of_nat (length (Vehicle.boxes self)) <= Vehicle.window_size self ->
     Z.of_nat (length (Vehicle.boxes self')) <= Vehicle.window_size self).
Proof.
  revert self. induction bxs as [|b bxs IH]; intros self Hlive.
  - exists self, []. simpl. repeat split; try reflexivity; try apply Hlive.
    intros; assumption.
  - destruct (check_ownership_single_live self b Hlive)
      as (s1 & c & E1 & Hl1 & Hw1 & Hs1 & Hd1 & Hlen1).
    destruct (IH s1 Hl1) as (s2 & cs & E2 & Hc2 & Hl2 & Hw2 & Hs2 & Hd2 & Hlen2).
    exists s2, (c :: cs). simpl. rewrite E1. simpl. rewrite E2. simpl.
    split; [reflexivity|]. split; [congruence|]. split; [exact Hl2|].
    split; [congruence|]. split; [congruence|]. split; [congruence|].
    intros Hpos Hle. rewrite Hw1 in Hlen2. apply Hlen2; [exact Hpos|].
    apply Hlen1; assumption.
Qed.

(** [check_ownership] never raises on a live vehicle; the window stays
    non-empty and within its bound, and the box is lost only together with
    the detection count. *)
Lemma check_ownership_live (self : Vehicle.t) (bxs : list Box.t) :
  live self ->
  exists self' claimed,
    Vehicle.check_ownership self bxs = Some (self', claimed) /\
    length claimed = length bxs /\
    Vehicle.boxes self' <> [] /\
    Vehicle.window_size self' = Vehicle.window_size self /\
    (Vehicle.box self' = None -> Vehicle.frames_detected self' = 0) /\
    (0 < Vehicle.window_size self ->
     Z.of_nat (length (Vehicle.boxes self)) <= Vehicle.window_size self ->
     Z.of_nat (length (Vehicle.boxes self')) <= Vehicle.window_size self).
Proof.
  intros Hlive.
  destruct (claim_each_live bxs self Hlive)
    as (s1 & cl & E1 & Hc & [Hb1 Hn1] & Hw1 & _ & _ & Hlen1).
  unfold Vehicle.check_ownership. rewrite E1. simpl.
  destruct (existsb _ cl); [|destruct (_ <? _)];
    eexists _, cl; (split; [reflexivity|]); simpl;
    (split; [exact Hc|]); (split; [exact Hn1|]); (split; [exact Hw1|]);
    (split; [|exact Hlen1]); intros; congruence.
Qed.

(** ** Vehicle: claiming *)

(** C3: [check_ownership_single] on a vehicle that has a box and a
    non-empty window returns true exactly when the overlap area with the
    representative box is positive or the distance of the centres is below
    20.  On false the vehicle is unchanged.  On true the box is pushed to
    the front of the window, the oldest entry is dropped when the window
    now exceeds [window_size], and the representative box is the
    corner-wise integer mean of the resulting window; the counters are not
    touched. *)
Theorem C3_claim_merges_box (self : Vehicle.t) (b other : Box.t) :
  Vehicle.box self = Some b ->
  Vehicle.boxes self <> [] ->
  exists self' claimed,
    Vehicle.check_ownership_single self other = Some (self', claimed) /\
    (claimed = true <->
     0 < Box.get_overlap_area b other \/
     (Box.get_center_distance b other < 20)%R) /\
    (claimed = false -> self' = self) /\
    (claimed = true ->
     let pushed := other :: Vehicle.boxes self in
     Vehicle.boxes self' =
       (if Vehicle.window_size self <? Z.of_nat (length pushed)
        then removelast pushed else pushed) /\
     Vehicle.box self' = Some (Box.init (corner_mean (Vehicle.boxes self'))) /\
     Vehicle.window_size self' = Vehicle.window_size self /\
     Vehicle.frames_since_detected self' = Vehicle.frames_since_detected self /\
     Vehicle.frames_detected self' = Vehicle.frames_detected self).
Proof.
  intros Hb Hne.
  rewrite (check_ownership_single_eq self b other Hb Hne).
  pose proof (owns_spec b other) as Hspec.
  destruct (Vehicle.owns b other).
  - eexists _, true. split; [reflexivity|]. split; [|split].
    + split; [intros _; apply Hspec; reflexivity | reflexivity].
    + discriminate.
    + intros _. simpl. repeat split; reflexivity.
  - exists self, false. split; [reflexivity|]. split; [|split].
    + split; [discriminate | intros H; apply Hspec in H; discriminate].
    + reflexivity.
    + discriminate.
Qed.

(** The averaging example of the specification: the window holds
    [((0,0),(10,10))], the box [((2,2),(12,12))] is claimed, and the
    representative box becomes [((1,1),(11,11))]. *)
Lemma C3_claim_merges_box_witness :
  exists self',
    Vehicle.check_ownership_single vehicle_0_10 box_2_12 = Some (self', true) /\
    Vehicle.boxes self' = [box_2_12; box_0_10] /\
    Vehicle.box self' = Some (Box.init ((1, 1), (11, 11))).
Proof.
  destruct (C3_claim_merges_box vehicle_0_10 box_0_10 box_2_12 eq_refl)
    as (self' & claimed & E & _ & _ & Hm); [discriminate|].
  vm_compute in E. injection E as E1 E2. subst claimed.
  destruct (Hm eq_refl) as (Hw & Hbox & _).
  exists self'. subst self'. split; [reflexivity|]. split; reflexivity.
Defined.

(** C10: a claim recomputes the representative box before the next
    candidate is tested.  The vehicle with box [((0,0),(10,10))] does not
    own [((15,0),(40,10))]; once it has claimed [((8,0),(30,10))] its
    representative box is [((4,0),(20,10))], which does.  So the second
    box is claimed in the order claimed-first and not in the other order:
    the flags depend on the order of the candidates. *)
Theorem C10_claim_order_matters :
  exists (self : Vehicle.t) (b1 b2 start updated : Box.t)
         (self1 self12 self21 : Vehicle.t),
    Vehicle.box self = Some start /\
    Vehicle.check_ownership_single self b1 = Some (self1, true) /\
    Vehicle.box self1 = Some updated /\
    Vehicle.owns start b2 = false /\
    Vehicle.owns updated b2 = true /\
    Permutation [b1; b2] [b2; b1] /\
    Vehicle.check_ownership self [b1; b2] = Some (self12, [true; true]) /\
    Vehicle.check_ownership self [b2; b1] = Some (self21, [false; true]).
Proof.
  exists vehicle_0_10, box_8_30, box_15_40, box_0_10,
         (Box.init ((4, 0), (20, 10))).
  eexists _, _, _.
  split; [reflexivity|]. split; [vm_compute; reflexivity|].
  split; [reflexivity|]. split; [reflexivity|]. split; [reflexivity|].
  split; [apply perm_swap|].
  split; vm_compute; reflexivity.
Qed.

(** ** Vehicle: absence *)

Lemma claim_each_none (b : Box.t) (bxs : list Box.t) (self : Vehicle.t) :
  Vehicle.box self = Some b ->
  Forall (fun o => Vehicle.owns b o = false) bxs ->
  Vehicle.claim_each self bxs = Some (self, replicate (length bxs) false).
Proof.
  intros Hb Hall. induction Hall as [|o bxs Ho _ IH]; [reflexivity|].
  simpl. unfold Vehicle.check_ownership_single. rewrite Hb. simpl.
  rewrite Ho. simpl. rewrite IH. reflexivity.
Qed.

Lemma existsb_replicate_false (n : nat) :
  existsb (fun c : bool => c) (replicate n false) = false.
Proof. induction n as [|n IH]; [reflexivity | exact IH]. Qed.

(** One frame without a claim. *)
Lemma check_ownership_none (b : Box.t) (bxs : list Box.t) (self : Vehicle.t) :
  Vehicle.box self = Some b ->
  Forall (fun o => Vehicle.owns b o = false) bxs ->
  Vehicle.check_ownership self bxs =
  Some (if Vehicle.window_size self <? Vehicle.frames_since_detected self + 1
        then Vehicle.mk None (Vehicle.window_size self) (Vehicle.boxes self)
               (Vehicle.frames_since_detected self + 1) 0
        else Vehicle.mk (Some b) (Vehicle.window_size self) (Vehicle.boxes self)
               (Vehicle.frames_since_detected self + 1)
               (Vehicle.frames_detected self),
        replicate (length bxs) false).
Proof.
  intros Hb Hall. unfold Vehicle.check_ownership.
  rewrite (claim_each_none b bxs self Hb Hall). simpl.
  rewrite existsb_replicate_false, Hb.
  destruct (_ <? _); reflexivity.
Qed.

(** ** Tracker: the removal pass *)

Lemma fold_list_remove_cons (h : Vehicle.t) (rs l : list Vehicle.t) :
  Forall (fun r => h <> r) rs ->
  fold_left (fun vs vehicle => Tracker.list_remove vehicle vs) rs (h :: l) =
  h :: fold_left (fun vs vehicle => Tracker.list_remove vehicle vs) rs l.
Proof.
  intros Hall. revert l. induction Hall as [|r rs Hr _ IH]; intros l.
  - reflexivity.
  - simpl. destruct (decide (h = r)) as [E|_]; [contradiction|]. apply IH.
Qed.

(** The two loops of [remove_vehicles] keep exactly the vehicles that have
    a box, in their order. *)
Lemma remove_vehicles_filter (self : Tracker.t) :
  Tracker.vehicles (Tracker.remove_vehicles self) =
  filter (fun vehicle => Vehicle.box vehicle <> None) (Tracker.vehicles self).
Proof.
  unfold Tracker.remove_vehicles. simpl.
  induction (Tracker.vehicles self) as [|h l IH]; [reflexivity|].
  destruct (Vehicle.box h) as [b|] eqn:Eb.
  - rewrite filter_cons_False by (rewrite Eb; discriminate).
    rewrite (filter_cons_True (fun v => Vehicle.box v <> None))
      by (rewrite Eb; discriminate).
    rewrite fold_list_remove_cons; [rewrite IH; reflexivity|].
    apply Forall_forall. intros r Hr. apply list_elem_of_filter in Hr as [Hr _].
    intros ->. congruence.
  - rewrite filter_cons_True by exact Eb.
    rewrite (filter_cons_False (fun v => Vehicle.box v <> None))
      by (rewrite Eb; intros H; apply H; reflexivity).
    simpl. destruct (decide (h = h)) as [_|N]; [exact IH | contradiction].
Qed.

Lemma remove_vehicles_elem (self : Tracker.t) (v : Vehicle.t) :
  v ∈ Tracker.vehicles (Tracker.remove_vehicles self) <->
  Vehicle.box v <> None /\ v ∈ Tracker.vehicles self.
Proof. rewrite remove_vehicles_filter, list_elem_of_filter. reflexivity. Qed.

(** ** Vehicle: the absence lifecycle *)

Lemma update_for_frames_present (b : Box.t) (fs : list (list Box.t)) :
  forall self : Vehicle.t,
    Vehicle.box self = Some b ->
    Forall (Forall (fun o => Vehicle.owns b o = false)) fs ->
    Vehicle.frames_since_detected self + Z.of_nat (length fs)
      <= Vehicle.window_size self ->
    update_for_frames self fs =
    Some (Vehicle.mk (Some b) (Vehicle.window_size self) (Vehicle.boxes self)
            (Vehicle.frames_since_detected self + Z.of_nat (length fs))
            (Vehicle.frames_detected self)).
Proof.
  induction fs as [|bxs fs IH]; intros self Hb Hall Hle.
  - destruct self as [bx ws w fsd fd]. simpl in *. subst bx.
    do 2 f_equal. lia.
  - apply Forall_cons in Hall as [Hbxs Hall].
    cbn [update_for_frames]. rewrite (check_ownership_none b bxs self Hb Hbxs).
    simpl length in Hle.
    destruct (Z.ltb_spec (Vehicle.window_size self)
                (Vehicle.frames_since_detected self + 1)) as [Hlt|_]; [lia|].
    simpl. rewrite IH; simpl; [|reflexivity|exact Hall|lia].
    do 2 f_equal. lia.
Qed.

Lemma update_for_frames_gone (b : Box.t) (fs : list (list Box.t)) :
  forall self : Vehicle.t,
    Vehicle.box self = Some b ->
    Forall (Forall (fun o => Vehicle.owns b o = false)) fs ->
    Vehicle.frames_since_detected self <= Vehicle.window_size self ->
    Vehicle.frames_since_detected self + Z.of_nat (length fs)
      = Vehicle.window_size self + 1 ->
    update_for_frames self fs =
    Some (Vehicle.mk None (Vehicle.window_size self) (Vehicle.boxes self)
            (Vehicle.window_size self + 1) 0).
Proof.
  induction fs as [|bxs fs IH]; intros self Hb Hall Hle Hk.
  - simpl in Hk. lia.
  - apply Forall_cons in Hall as [Hbxs Hall].
    cbn [update_for_frames]. rewrite (check_ownership_none b bxs self Hb Hbxs).
    simpl length in Hk.
    destruct (Z.ltb_spec (Vehicle.window_size self)
                (Vehicle.frames_since_detected self + 1)) as [Hlt|Hge].
    + destruct fs as [|? ?]; [|simpl length in Hk; lia].
      simpl. do 2 f_equal. lia.
    + simpl. rewrite IH; simpl; [reflexivity|reflexivity|exact Hall|lia|lia].
Qed.

(** C4: a vehicle with a box that claims no candidate box for a run of
    frames.  Each such frame adds one to [frames_since_detected]; while
    the counter stays within [window_size] the box and [frames_detected]
    are kept; on the frame that takes the counter to [window_size + 1] the
    box becomes [None] and [frames_detected] becomes 0, and a vehicle in
    that state is in no object list that [remove_vehicles] leaves.  From a
    counter of 0 this happens on frame [window_size + 1] of the run. *)
Theorem C4_absence_lifecycle (self : Vehicle.t) (b : Box.t)
    (fs : list (list Box.t)) :
  Vehicle.box self = Some b ->
  Vehicle.frames_since_detected self <= Vehicle.window_size self ->
  Forall (Forall (fun o => Vehicle.owns b o = false)) fs ->
  let k := Z.of_nat (length fs) in
  let fsd := Vehicle.frames_since_detected self in
  (fsd + k <= Vehicle.window_size self ->
   update_for_frames self fs =
   Some (Vehicle.mk (Some b) (Vehicle.window_size self) (Vehicle.boxes self)
           (fsd + k) (Vehicle.frames_detected self))) /\
  (fsd + k = Vehicle.window_size self + 1 ->
   let gone := Vehicle.mk None (Vehicle.window_size self) (Vehicle.boxes self)
                 (Vehicle.window_size self + 1) 0 in
   update_for_frames self fs = Some gone /\
   forall tracker : Tracker.t,
     gone ∉ Tracker.vehicles (Tracker.remove_vehicles tracker)).
Proof.
  intros Hb Hle Hall k fsd. split.
  - intros Hk. apply update_for_frames_present; assumption.
  - intros Hk gone. split.
    + apply (update_for_frames_gone b); assumption.
    + intros tracker Hin. apply remove_vehicles_elem in Hin as [Hbox _].
      apply Hbox. reflexivity.
Qed.

(** A vehicle of window size 7, created on the box [((0,0),(10,10))], that
    sees only a far-away box for 8 frames ends without a box. *)
Lemma C4_absence_lifecycle_witness :
  update_for_frames vehicle_0_10 (replicate 8 [box_far]) =
  Some (Vehicle.mk None 7 [box_0_10] 8 0).
Proof.
  refine (proj1 (proj2 (C4_absence_lifecycle vehicle_0_10 box_0_10
                          (replicate 8 [box_far]) eq_refl _ _) eq_refl)).
  - vm_compute. discriminate.
  - repeat constructor.
Defined.

(** ** Tracker: the bounded histories *)

Lemma take_push_bounded (k : nat) (f : Frame.t) (h : list Frame.t) (size : Z) :
  Z.of_nat k <= size ->
  take k (Tracker.push_bounded f h size) = take k (f :: h).
Proof.
  intros Hk. unfold Tracker.push_bounded.
  destruct (Z.ltb_spec size (Z.of_nat (length (f :: h)))) as [Hlt|_];
    [|reflexivity].
  rewrite removelast_firstn_len, take_take. f_equal. lia.
Qed.

Lemma push_bounded_length (f : Frame.t) (h : list Frame.t) (size : Z) :
  0 <= size -> Z.of_nat (length h) <= size ->
  Z.of_nat (length (Tracker.push_bounded f h size)) <= size.
Proof.
  intros Hs Hh. unfold Tracker.push_bounded.
  destruct (Z.ltb_spec size (Z.of_nat (length (f :: h)))) as [Hlt|Hle];
    [|exact Hle].
  rewrite removelast_length. simpl length in *. lia.
Qed.

(** ** Tracker: box-count stabilization *)

(** The loop of [check_box_change] falls through to the reset exactly when
    the entries it inspects all have the new count. *)
Lemma count_settled_spec (n : Z) (fs : list Frame.t) :
  forall i : Z, 0 <= i ->
    Tracker.count_settled n i fs = true <->
    Forall (fun f => box_count f = n) (take (Z.to_nat (3 - i)) fs).
Proof.
  induction fs as [|f fs IH]; intros i Hi.
  - simpl. rewrite take_nil. split; [constructor | reflexivity].
  - simpl. destruct (Z.leb_spec 3 i) as [Hge|Hlt].
    + replace (Z.to_nat (3 - i)) with 0%nat by lia.
      split; [constructor | reflexivity].
    + replace (Z.to_nat (3 - i)) with (S (Z.to_nat (3 - (i + 1)))) by lia.
      rewrite firstn_cons, Forall_cons. fold (box_count f).
      destruct (Z.eqb_spec n (box_count f)) as [E|N]; simpl.
      * rewrite IH by lia. split; [intros H; split; [symmetry; exact E | exact H]
                                  | intros [_ H]; exact H].
      * split; [discriminate | intros [E _]; congruence].
Qed.

Lemma check_box_change_reset (boxes : list BoxTuple) (self : Tracker.t) :
  Z.of_nat (length boxes) <> Tracker.heatmap_boxes_count self ->
  Forall (fun f => box_count f = Z.of_nat (length boxes)) (inspected self) ->
  Tracker.check_box_change boxes self =
  Tracker.set_heatmap_boxes_count (Tracker.reset_vehicles self)
    (Z.of_nat (length boxes)).
Proof.
  intros Hne Hall. unfold Tracker.check_box_change.
  destruct (Z.eqb_spec (Z.of_nat (length boxes))
              (Tracker.heatmap_boxes_count self)) as [E|_]; [contradiction|].
  simpl. apply (count_settled_spec _ _ 0) in Hall; [|lia].
  rewrite Hall. reflexivity.
Qed.

Lemma check_box_change_keep (boxes : list BoxTuple) (self : Tracker.t) :
  Z.of_nat (length boxes) = Tracker.heatmap_boxes_count self \/
  ~ Forall (fun f => box_count f = Z.of_nat (length boxes)) (inspected self) ->
  Tracker.check_box_change boxes self = self.
Proof.
  intros H. unfold Tracker.check_box_change.
  destruct (Z.eqb_spec (Z.of_nat (length boxes))
              (Tracker.heatmap_boxes_count self)) as [E|N]; [reflexivity|].
  simpl. destruct H as [E|Hnot]; [contradiction|].
  destruct (Tracker.count_settled _ 0 _) eqn:Ec; [|reflexivity].
  exfalso. apply Hnot. apply (count_settled_spec _ _ 0); [lia | exact Ec].
Qed.

(** After the push the loop meets the new frame first, then the frames that
    were already in the history. *)
Lemma inspected_add_smoothed_frame (k : nat) heatmap boxes (self : Tracker.t) :
  (k <= 3)%nat -> Z.of_nat k <= Tracker.heatmap_window_size self ->
  take k (inspected (Tracker.add_smoothed_frame heatmap boxes self)) =
  take k (Frame.mk heatmap boxes :: Tracker.smoothed_frames self).
Proof.
  intros Hk Hw. unfold inspected. simpl.
  rewrite take_take, Nat.min_l by exact Hk.
  apply take_push_bounded. exact Hw.
Qed.

Lemma not_Forall_take {A} (P : A -> Prop) (k : nat) (l : list A) :
  ~ Forall P (take k l) -> ~ Forall P l.
Proof. intros H Hall. apply H. apply Forall_take. exact Hall. Qed.

(** A frame whose count differs from the count of the frame before it is
    never taken as settled. *)
Lemma stabilize_fresh_count heatmap boxes (self : Tracker.t) f0 rest :
  Tracker.smoothed_frames self = f0 :: rest ->
  box_count f0 <> Z.of_nat (length boxes) ->
  2 <= Tracker.heatmap_window_size self ->
  stabilize heatmap boxes self = Tracker.add_smoothed_frame heatmap boxes self.
Proof.
  intros Hh Hne Hw. unfold stabilize. apply check_box_change_keep. right.
  apply (not_Forall_take _ 2).
  rewrite inspected_add_smoothed_frame by lia. rewrite Hh. simpl.
  intros Hall. apply Forall_cons in Hall as [_ Hall].
  apply Forall_cons in Hall as [E _]. contradiction.
Qed.

(** C1 as worded fails: the current frame is the third in a row with
    3 boxes, so not every inspected entry differs from the new count, and
    the wording leaves the object list alone; the code clears it. *)
Lemma C1_as_specified_fails :
  ~ stabilization_as_specified three_boxes tracker_third_3.
Proof.
  intros H. destruct H as [_ H]; [discriminate|].
  destruct H as [Hv _].
  - intros Hall. apply Forall_cons in Hall as [Hne _]. apply Hne. reflexivity.
  - vm_compute in Hv. discriminate.
Qed.

(** C1, amended: when the new smoothed box count differs from
    [heatmap_boxes_count], [check_box_change] inspects up to 3 entries of
    the smoothed history, most recent first (inside [track] the first of
    them is the frame just pushed).  If every inspected entry has a box
    count equal to the new count, the object list is cleared and
    [heatmap_boxes_count] becomes the new count; otherwise the tracker is
    unchanged.  With a window of at least 2 a single outlier frame after a
    frame of the stable count clears nothing, whatever happens to the
    object list in between; with a window of at least 3 a new count is
    accepted, and the list cleared, on its third consecutive frame. *)
Theorem C1_box_count_stabilization (self : Tracker.t) (boxes : list BoxTuple) :
  let n := Z.of_nat (length boxes) in
  n <> Tracker.heatmap_boxes_count self ->
  (Forall (fun f => box_count f = n) (inspected self) ->
   Tracker.vehicles (Tracker.check_box_change boxes self) = [] /\
   Tracker.heatmap_boxes_count (Tracker.check_box_change boxes self) = n) /\
  (~ Forall (fun f => box_count f = n) (inspected self) ->
   Tracker.check_box_change boxes self = self) /\
  (forall f0 rest heatmap heatmap' boxes' vs,
     Tracker.smoothed_frames self = f0 :: rest ->
     box_count f0 = Tracker.heatmap_boxes_count self ->
     2 <= Tracker.heatmap_window_size self ->
     Z.of_nat (length boxes') = Tracker.heatmap_boxes_count self ->
     let s1 := stabilize heatmap boxes self in
     let s2 := stabilize heatmap' boxes' (Tracker.set_vehicles s1 vs) in
     Tracker.vehicles s1 = Tracker.vehicles self /\
     Tracker.heatmap_boxes_count s1 = Tracker.heatmap_boxes_count self /\
     Tracker.vehicles s2 = vs /\
     Tracker.heatmap_boxes_count s2 = Tracker.heatmap_boxes_count self) /\
  (forall f0 rest heatmap1 heatmap2 heatmap3 boxes2 boxes3 vs1 vs2,
     Tracker.smoothed_frames self = f0 :: rest ->
     box_count f0 = Tracker.heatmap_boxes_count self ->
     3 <= Tracker.heatmap_window_size self ->
     Z.of_nat (length boxes2) = n ->
     Z.of_nat (length boxes3) = n ->
     let s1 := stabilize heatmap1 boxes self in
     let s2 := stabilize heatmap2 boxes2 (Tracker.set_vehicles s1 vs1) in
     let s3 := stabilize heatmap3 boxes3 (Tracker.set_vehicles s2 vs2) in
     Tracker.vehicles s1 = Tracker.vehicles self /\
     Tracker.heatmap_boxes_count s1 = Tracker.heatmap_boxes_count self /\
     Tracker.vehicles s2 = vs1 /\
     Tracker.heatmap_boxes_count s2 = Tracker.heatmap_boxes_count self /\
     Tracker.vehicles s3 = [] /\
     Tracker.heatmap_boxes_count s3 = n).
Proof.
  intros n Hne. split; [|split; [|split]].
  - intros Hall. rewrite check_box_change_reset by assumption.
    split; reflexivity.
  - intros Hnot. apply check_box_change_keep. right. exact Hnot.
  - intros f0 rest heatmap heatmap' boxes' vs Hh Hf0 Hw Hb' s1 s2.
    assert (E1 : s1 = Tracker.add_smoothed_frame heatmap boxes self).
    { apply (stabilize_fresh_count _ _ _ f0 rest); [exact Hh | | exact Hw].
      fold n. congruence. }
    assert (E2 : s2 = Tracker.add_smoothed_frame heatmap' boxes'
                        (Tracker.set_vehicles s1 vs)).
    { apply check_box_change_keep. left. rewrite Hb', E1. reflexivity. }
    rewrite E2, E1. repeat split; reflexivity.
  - intros f0 rest heatmap1 heatmap2 heatmap3 boxes2 boxes3 vs1 vs2
           Hh Hf0 Hw Hb2 Hb3 s1 s2 s3.
    assert (E1 : s1 = Tracker.add_smoothed_frame heatmap1 boxes self).
    { apply (stabilize_fresh_count _ _ _ f0 rest); [exact Hh | | lia].
      fold n. congruence. }
    assert (T1 : forall k, (k <= 3)%nat ->
              take k (Tracker.smoothed_frames s1) =
              take k (Frame.mk heatmap1 boxes :: f0 :: rest)).
    { intros k Hk. rewrite E1. simpl. rewrite <- Hh.
      apply take_push_bounded. lia. }
    assert (E2 : s2 = Tracker.add_smoothed_frame heatmap2 boxes2
                        (Tracker.set_vehicles s1 vs1)).
    { apply check_box_change_keep. right.
      rewrite <- (take_ge (inspected _) 3)
        by (unfold inspected; rewrite length_take; lia).
      rewrite inspected_add_smoothed_frame by (rewrite ?E1; simpl; lia).
      simpl Tracker.smoothed_frames. rewrite firstn_cons, (T1 2%nat) by lia.
      simpl. intros Hall. apply Forall_cons in Hall as [_ Hall].
      apply Forall_cons in Hall as [_ Hall].
      apply Forall_cons in Hall as [E _]. fold n in Hne. congruence. }
    assert (T2 : forall k, (k <= 2)%nat ->
              take k (Tracker.smoothed_frames s2) =
              take k [Frame.mk heatmap2 boxes2; Frame.mk heatmap1 boxes]).
    { intros k Hk. rewrite E2. simpl Tracker.smoothed_frames.
      rewrite take_push_bounded by (rewrite E1; simpl; lia).
      destruct k as [|k]; [reflexivity|].
      rewrite !firstn_cons. f_equal. rewrite T1 by lia.
      destruct k as [|k]; [reflexivity|].
      rewrite !firstn_cons. f_equal. replace k with 0%nat by lia. reflexivity. }
    assert (C2 : Tracker.heatmap_boxes_count s2 =
                 Tracker.heatmap_boxes_count self).
    { rewrite E2, E1. reflexivity. }
    assert (E3 : s3 = Tracker.set_heatmap_boxes_count
                        (Tracker.reset_vehicles
                           (Tracker.add_smoothed_frame heatmap3 boxes3
                              (Tracker.set_vehicles s2 vs2)))
                        (Z.of_nat (length boxes3))).
    { apply check_box_change_reset.
      - simpl. rewrite C2, Hb3. exact Hne.
      - rewrite <- (take_ge (inspected _) 3)
          by (unfold inspected; rewrite length_take; lia).
        rewrite inspected_add_smoothed_frame
          by (rewrite ?E2, ?E1; simpl; lia).
        simpl Tracker.smoothed_frames. rewrite firstn_cons, (T2 2%nat) by lia.
        simpl. repeat (apply Forall_cons; split);
          [reflexivity | unfold box_count; simpl; congruence
          | unfold box_count; simpl; fold n; congruence | constructor]. }
    rewrite E3, C2. rewrite E2 at 1. rewrite E1.
    repeat split; try reflexivity. simpl. exact Hb3.
Qed.

(** From the stable count 2 the count 3 is reported on three frames in a
    row: the objects survive the first two and are cleared on the third. *)
Lemma C1_box_count_stabilization_witness :
  let s1 := stabilize [[0%Q]] three_boxes tracker_stable_2 in
  let s2 := stabilize [[0%Q]] three_boxes s1 in
  let s3 := stabilize [[0%Q]] three_boxes s2 in
  Tracker.vehicles s2 = [vehicle_0_10] /\
  Tracker.heatmap_boxes_count s2 = 2 /\
  Tracker.vehicles s3 = [] /\
  Tracker.heatmap_boxes_count s3 = 3.
Proof.
  assert (Hne : Z.of_nat (length three_boxes)
                <> Tracker.heatmap_boxes_count tracker_stable_2)
    by discriminate.
  destruct (C1_box_count_stabilization tracker_stable_2 three_boxes Hne)
    as (_ & _ & _ & H).
  destruct (H (frame_with 2) [frame_with 2] [[0%Q]] [[0%Q]] [[0%Q]]
              three_boxes three_boxes [vehicle_0_10] [vehicle_0_10]
              eq_refl eq_refl)
    as (_ & _ & H2 & C2 & H3 & C3); [discriminate | reflexivity | reflexivity|].
  exact (conj H2 (conj C2 (conj H3 C3))).
Defined.

(** With a heat-map window of 1 the history holds the current frame only,
    and a single outlier frame clears the objects: the window of at least
    2 in the statement above is needed. *)
Lemma outlier_clears_with_window_one :
  let self := Tracker.mk 1 (17 # 10)%Q 7 [] [frame_with 2] [vehicle_0_10] 2 in
  Tracker.vehicles (stabilize [[0%Q]] three_boxes self) = [] /\
  Tracker.heatmap_boxes_count (stabilize [[0%Q]] three_boxes self) = 3.
Proof. split; reflexivity. Qed.

(** ** Tracker: construction *)

(** C5 as worded fails: the all-zero configuration is accepted. *)
Lemma C5_as_specified_fails : ~ invalid_configuration_rejected.
Proof.
  intros H. specialize (H 0 0%Q 0 (or_introl (Z.le_refl 0))). discriminate.
Qed.

(** C5, amended: [Tracker.__init__] checks nothing.  For all values of the
    three parameters, non-positive ones included, it returns a tracker
    that stores them as given, with both histories and the object list
    empty and [heatmap_boxes_count] 0. *)
Theorem C5_construction_accepts_everything (hws : Z) (tpf : Q) (vws : Z) :
  exists self,
    Tracker.init hws tpf vws = Some self /\
    Tracker.heatmap_window_size self = hws /\
    Tracker.heatmap_threshold_per_frame self = tpf /\
    Tracker.vehicle_window_size self = vws /\
    Tracker.frames self = [] /\
    Tracker.smoothed_frames self = [] /\
    Tracker.vehicles self = [] /\
    Tracker.heatmap_boxes_count self = 0.
Proof. eexists. repeat split; reflexivity. Qed.

(** ** Tracker: boosting *)

Lemma in_slice_nonneg (n : nat) (start stop : Z) (k : nat) :
  0 <= start -> 0 <= stop -> (k < n)%nat ->
  in_slice n start stop k = (start <=? Z.of_nat k) && (Z.of_nat k <? stop).
Proof.
  intros H0 H1 Hk. unfold in_slice, slice_bound.
  destruct (Z.ltb_spec start 0) as [?|_]; [lia|].
  destruct (Z.ltb_spec stop 0) as [?|_]; [lia|].
  f_equal.
  - destruct (Z.leb_spec (Z.min start (Z.of_nat n)) (Z.of_nat k)),
             (Z.leb_spec start (Z.of_nat k)); lia || reflexivity.
  - destruct (Z.ltb_spec (Z.of_nat k) (Z.min stop (Z.of_nat n))),
             (Z.ltb_spec (Z.of_nat k) stop); lia || reflexivity.
Qed.

(** The slice product, cell by cell, for a box with image coordinates. *)
Lemma cell_mul_slice (g : Grid) (b : Box.t) (yi xi : nat) :
  nonneg_box b ->
  cell (mul_slice g
          (Point.y (Box.top_left b)) (Point.y (Box.bottom_right b))
          (Point.x (Box.top_left b)) (Point.x (Box.bottom_right b))) yi xi =
  (fun c => if in_box b yi xi then times3 c else c) <$> cell g yi xi.
Proof.
  intros (Hx0 & Hy0 & Hx1 & Hy1). unfold cell, mul_slice, in_box.
  rewrite list_lookup_imap.
  destruct (g !! yi) as [row|] eqn:Erow; [|reflexivity]. simpl.
  rewrite in_slice_nonneg by (eauto using lookup_lt_Some).
  destruct ((_ <=? Z.of_nat yi) && (Z.of_nat yi <? _)); simpl.
  - rewrite list_lookup_imap.
    destruct (row !! xi) as [c|] eqn:Ec; [|reflexivity]. simpl.
    rewrite in_slice_nonneg by (eauto using lookup_lt_Some).
    destruct (_ <=? Z.of_nat xi); reflexivity.
  - destruct (row !! xi); reflexivity.
Qed.

Lemma boost_heatmap_cells (vs : list Vehicle.t) :
  forall heatmap : Grid,
    (forall v, v ∈ vs -> 24 < Vehicle.frames_detected v ->
               exists b, Vehicle.box v = Some b /\ nonneg_box b) ->
    exists out,
      Tracker.boost_heatmap heatmap vs = Some out /\
      forall yi xi,
        cell out yi xi =
        Nat.iter (boost_count vs yi xi) times3 <$> cell heatmap yi xi.
Proof.
  induction vs as [|v vs IH]; intros heatmap Hvs.
  - exists heatmap. split; [reflexivity|]. intros yi xi. simpl.
    destruct (cell heatmap yi xi); reflexivity.
  - assert (Hvs' : forall v', v' ∈ vs -> 24 < Vehicle.frames_detected v' ->
                     exists b, Vehicle.box v' = Some b /\ nonneg_box b).
    { intros v' Hin. apply Hvs. right. exact Hin. }
    cbn [Tracker.boost_heatmap]. unfold boost_count. cbn [List.filter].
    unfold boosts at 1.
    destruct (Z.ltb_spec 24 (Vehicle.frames_detected v)) as [Hfd|Hfd].
    + destruct (Hvs v (list_elem_of_here _ _) Hfd) as (b & Eb & Hb).
      rewrite Eb. simpl.
      destruct (IH (mul_slice heatmap
                      (Point.y (Box.top_left b)) (Point.y (Box.bottom_right b))
                      (Point.x (Box.top_left b)) (Point.x (Box.bottom_right b)))
                   Hvs') as (out & Eout & Hcells).
      exists out. split; [exact Eout|]. intros yi xi.
      rewrite Hcells, cell_mul_slice by exact Hb.
      unfold boost_count.
      destruct (cell heatmap yi xi) as [c|]; [|reflexivity]. simpl.
      destruct (in_box b yi xi); [|reflexivity].
      simpl length. rewrite Nat.iter_succ_r. reflexivity.
    + destruct (IH heatmap Hvs') as (out & Eout & Hcells).
      exists out. split; [exact Eout|]. intros yi xi. simpl.
      rewrite Hcells. reflexivity.
Qed.

Lemma boost_heatmap_skips (vs : list Vehicle.t) (heatmap : Grid) :
  (forall v, v ∈ vs -> Vehicle.frames_detected v <= 24) ->
  Tracker.boost_heatmap heatmap vs = Some heatmap.
Proof.
  induction vs as [|v vs IH]; intros Hvs; [reflexivity|].
  simpl. destruct (Z.ltb_spec 24 (Vehicle.frames_detected v)) as [Hfd|_].
  - specialize (Hvs v (list_elem_of_here _ _)). lia.
  - apply IH. intros v' Hin. apply Hvs. right. exact Hin.
Qed.

Lemma boost_count_zero (vs : list Vehicle.t) (yi xi : nat) :
  (forall v, v ∈ vs -> boosts yi xi v = false) -> boost_count vs yi xi = 0%nat.
Proof.
  unfold boost_count. induction vs as [|v vs IH]; intros H; [reflexivity|].
  simpl. rewrite (H v (list_elem_of_here _ _)). apply IH.
  intros v' Hin. apply H. right. exact Hin.
Qed.

(** C6: [boost_heatmap], when every vehicle with more than 24 detected
    frames has a box with image coordinates.  It returns an array of the
    same cells in which each cell is multiplied by 3 once for every
    vehicle that has [frames_detected > 24] and whose box rectangle
    contains the cell; a cell in no such rectangle is unchanged, and a
    list whose vehicles all have [frames_detected <= 24], so also exactly
    24, leaves the whole array unchanged. *)
Theorem C6_boost_heatmap (heatmap : Grid) (vs : list Vehicle.t) :
  (forall v, v ∈ vs -> 24 < Vehicle.frames_detected v ->
             exists b, Vehicle.box v = Some b /\ nonneg_box b) ->
  exists out,
    Tracker.boost_heatmap heatmap vs = Some out /\
    (forall yi xi c,
       cell heatmap yi xi = Some c ->
       cell out yi xi = Some (Nat.iter (boost_count vs yi xi) times3 c)) /\
    (forall yi xi, cell heatmap yi xi = None -> cell out yi xi = None) /\
    (forall yi xi,
       (forall v, v ∈ vs -> boosts yi xi v = false) ->
       cell out yi xi = cell heatmap yi xi) /\
    ((forall v, v ∈ vs -> Vehicle.frames_detected v <= 24) -> out = heatmap).
Proof.
  intros Hvs. destruct (boost_heatmap_cells vs heatmap Hvs) as (out & E & Hc).
  exists out. split; [exact E|]. split; [|split; [|split]].
  - intros yi xi c Ec. rewrite Hc, Ec. reflexivity.
  - intros yi xi Ec. rewrite Hc, Ec. reflexivity.
  - intros yi xi Hno. rewrite Hc, (boost_count_zero vs yi xi Hno).
    destruct (cell heatmap yi xi); reflexivity.
  - intros Hle. rewrite (boost_heatmap_skips vs heatmap Hle) in E. congruence.
Qed.

(** One boosted vehicle with the box [((1,0),(3,2))] and one vehicle with
    exactly 24 detected frames whose box covers the array: the cells of
    rows 0 and 1, columns 1 and 2, are tripled, the others are kept. *)
Lemma C6_boost_heatmap_witness :
  exists out,
    Tracker.boost_heatmap ones_3x4 [vehicle_25; vehicle_24] = Some out /\
    cell out 0 1 = Some 3%Q /\ cell out 1 2 = Some 3%Q /\
    cell out 0 0 = Some 1%Q /\ cell out 2 1 = Some 1%Q /\
    cell out 1 3 = Some 1%Q.
Proof.
  destruct (C6_boost_heatmap ones_3x4 [vehicle_25; vehicle_24])
    as (out & E & Hc & _).
  - intros v Hin Hfd.
    apply elem_of_cons in Hin as [->|Hin].
    + eexists. split; [reflexivity|]. vm_compute. repeat split; discriminate.
    + apply elem_of_cons in Hin as [->|Hin].
      * vm_compute in Hfd. discriminate.
      * inversion Hin.
  - exists out. split; [exact E|].
    repeat split;
      [ exact (Hc 0%nat 1%nat 1%Q eq_refl) | exact (Hc 1%nat 2%nat 1%Q eq_refl)
      | exact (Hc 0%nat 0%nat 1%Q eq_refl) | exact (Hc 2%nat 1%nat 1%Q eq_refl)
      | exact (Hc 1%nat 3%nat 1%Q eq_refl) ].
Defined.

(** ** Tracker: thresholding *)

Lemma lookup_map {A B} (f : A -> B) (l : list A) (i : nat) :
  map f l !! i = f <$> l !! i.
Proof.
  revert i. induction l as [|a l IH]; intros [|i]; try reflexivity. apply IH.
Qed.

Lemma cell_apply_threshold (g : Grid) (t : Z) (yi xi : nat) :
  cell (apply_threshold g t) yi xi =
  (fun c => if Qle_bool c (inject_Z t) then 0%Q else c) <$> cell g yi xi.
Proof.
  unfold cell, apply_threshold. rewrite lookup_map.
  destruct (g !! yi) as [row|]; [|reflexivity]. simpl. apply lookup_map.
Qed.

(** Python's [int] of a non-negative rational is its floor. *)
Lemma int_floor (q : Q) : (0 <= q)%Q -> int q = Qfloor q.
Proof.
  destruct q as [n d]. unfold Qle, int, Qfloor. simpl. intros Hn.
  apply Z.quot_div_nonneg; lia.
Qed.

(** An integer is at most the truncated threshold exactly when it is at
    most the threshold itself. *)
Lemma integer_le_int (k : Z) (q : Q) :
  (0 <= q)%Q ->
  Qle_bool (inject_Z k) (inject_Z (int q)) = Qle_bool (inject_Z k) q.
Proof.
  intros Hq. rewrite (int_floor q Hq). apply eq_true_iff_eq.
  rewrite !Qle_bool_iff, <- Zle_Qle. split.
  - intros Hk. apply Qle_trans with (inject_Z (Qfloor q)).
    + rewrite <- Zle_Qle. exact Hk.
    + apply Qfloor_le.
  - intros Hk.
    assert (Hlt : (inject_Z k < inject_Z (Qfloor q + 1))%Q)
      by (eapply Qle_lt_trans; [exact Hk | apply Qlt_floor]).
    rewrite <- Zlt_Qlt in Hlt. lia.
Qed.

(** C2 as worded fails: five frames at 1.7 per frame give the product
    8.5, and the accumulated cell is 8.5, so the wording zeroes it; the
    code compares with [int(8.5) = 8] and keeps it. *)
Lemma C2_as_specified_fails :
  ~ thresholding_as_specified (fun _ => []) tracker_heat_8_5.
Proof.
  intros H.
  destruct (H [[(17 # 2)%Q]] [[(17 # 2)%Q]] [[(17 # 2)%Q]] []
              0%nat 0%nat (17 # 2)%Q) as (c' & Ec & Hc); try reflexivity.
  vm_compute in Ec. injection Ec as <-. vm_compute in Hc. discriminate.
Qed.

(** The literal [1.7] is read as the double [0x1.b333333333333p+0], and a
    number that is a double is read as itself. *)
Lemma float_of_Q_literal :
  float_of_Q (17 # 10) = S754_finite false 7656119366529843 (-52) /\
  float_of_Q (7656119366529843 # 4503599627370496) =
  S754_finite false 7656119366529843 (-52) /\
  float_value (S754_finite false 7656119366529843 (-52)) =
  Some (7656119366529843 # 4503599627370496)%Q.
Proof. repeat split; vm_compute; reflexivity. Qed.

(** The threshold follows the float product, not the exact one: for 1.7
    per frame it is 8 with 5 frames and 17 with 10 frames, and for 8.2 per
    frame with 15 frames it is 122, where the exact product is 123. *)
Lemma threshold_follows_float_product :
  threshold_of (17 # 10) 5 = 8 /\
  threshold_of (17 # 10) 10 = 17 /\
  threshold_of (82 # 10) 15 = 122 /\
  int ((82 # 10) * inject_Z 15)%Q = 123.
Proof. repeat split; vm_compute; reflexivity. Qed.

(** C2, amended: after accumulation and boosting, [smooth_heatmaps] zeroes
    every cell whose value is at most
    [int(heatmap_threshold_per_frame * len(frames))], the float product
    truncated to an integer, and keeps every cell above it.  With 1.7 per
    frame and 5 frames the float product is 8.5 and the threshold is 8: a
    cell at 9 is kept and a cell at 8 is zeroed.  When the float product is
    not negative, an integer is at most the truncated product exactly when
    it is at most the float product. *)
Theorem C2_thresholding (label_bboxes : Grid -> list BoxTuple)
    (self : Tracker.t) (summed boosted : Grid) :
  np_sum_axis0 (map Frame.heatmap (Tracker.frames self)) = Some summed ->
  Tracker.boost_heatmap summed (Tracker.vehicles self) = Some boosted ->
  let tpf := Tracker.heatmap_threshold_per_frame self in
  let product :=
    float_mul (float_of_Q tpf)
              (float_of_Z (Z.of_nat (length (Tracker.frames self)))) in
  exists out,
    Tracker.smooth_heatmaps label_bboxes self = Some (out, label_bboxes out) /\
    (forall yi xi c,
       cell boosted yi xi = Some c ->
       cell out yi xi =
       Some (if Qle_bool c (inject_Z (int_of_float product)) then 0%Q else c)) /\
    (tpf = (17 # 10)%Q -> length (Tracker.frames self) = 5%nat ->
     (exists q, float_value product = Some q /\ (q == 17 # 2)%Q) /\
     int_of_float product = 8 /\
     forall yi xi,
       (cell boosted yi xi = Some 9%Q -> cell out yi xi = Some 9%Q) /\
       (cell boosted yi xi = Some 8%Q -> cell out yi xi = Some 0%Q)) /\
    (forall q,
       float_value product = Some q -> (0 <= q)%Q ->
       forall k : Z,
         Qle_bool (inject_Z k) (inject_Z (int_of_float product)) =
         Qle_bool (inject_Z k) q).
Proof.
  intros Hsum Hboost tpf product.
  exists (apply_threshold boosted (Tracker.threshold self)).
  assert (Hcells : forall yi xi c,
             cell boosted yi xi = Some c ->
             cell (apply_threshold boosted (Tracker.threshold self)) yi xi =
             Some (if Qle_bool c (inject_Z (int_of_float product))
                   then 0%Q else c)).
  { intros yi xi c Ec. rewrite cell_apply_threshold, Ec. reflexivity. }
  split; [|split; [exact Hcells|split]].
  - unfold Tracker.smooth_heatmaps. rewrite Hsum.
    cbn [mbind option_bind]. rewrite Hboost. reflexivity.
  - intros Htpf Hlen.
    assert (Eprod : product =
                    float_mul (float_of_Q (17 # 10)) (float_of_Z (Z.of_nat 5))).
    { unfold product. fold tpf. rewrite Htpf, Hlen. reflexivity. }
    assert (E8 : int_of_float product = 8)
      by (rewrite Eprod; vm_compute; reflexivity).
    split; [|split; [exact E8|]].
    + rewrite Eprod.
      destruct (float_value
                  (float_mul (float_of_Q (17 # 10)) (float_of_Z (Z.of_nat 5))))
        as [q|] eqn:Eq; [|vm_compute in Eq; discriminate Eq].
      exists q. split; [reflexivity|].
      vm_compute in Eq. injection Eq as <-. reflexivity.
    + intros yi xi.
      split; intros Ec; rewrite (Hcells _ _ _ Ec), E8; reflexivity.
  - intros q Hq Hpos k. unfold int_of_float. rewrite Hq.
    apply integer_le_int. exact Hpos.
Qed.

(** The tracker with five buffered frames that add up to 9 and to 8: the
    threshold is 8, the first cell survives and the second is zeroed. *)
Lemma C2_thresholding_witness :
  exists out,
    Tracker.smooth_heatmaps (fun _ => []) tracker_heat_9_8 = Some (out, []) /\
    cell out 0 0 = Some 9%Q /\ cell out 0 1 = Some 0%Q.
Proof.
  destruct (C2_thresholding (fun _ => []) tracker_heat_9_8
              [[9%Q; 8%Q]] [[9%Q; 8%Q]] eq_refl eq_refl)
    as (out & E & _ & Hex & _).
  exists out. split; [exact E|].
  destruct (Hex eq_refl eq_refl) as (_ & _ & Hc).
  split; [exact (proj1 (Hc 0%nat 0%nat) eq_refl)
         | exact (proj2 (Hc 0%nat 1%nat) eq_refl)].
Defined.

(** ** Tracker: association *)

Lemma claimed_by_some_cons (fl : list bool) (flags : list (list bool)) i :
  claimed_by_some (fl :: flags) i =
  default false (fl !! i) || claimed_by_some flags i.
Proof. reflexivity. Qed.

(** The flags after the first loop of [update_vehicles]. *)
Lemma fold_zip_with_orb_lookup (flags : list (list bool)) (i : nat) :
  forall (claimed : list bool) (c : bool),
    claimed !! i = Some c ->
    Forall (fun fl => length fl = length claimed) flags ->
    fold_left (zip_with orb) flags claimed !! i =
    Some (c || claimed_by_some flags i).
Proof.
  induction flags as [|fl flags IH]; intros claimed c Hc Hlen.
  - simpl. rewrite Hc, orb_false_r. reflexivity.
  - apply Forall_cons in Hlen as [Hfl Hlen]. simpl fold_left.
    assert (Hi : (i < length fl)%nat)
      by (rewrite Hfl; eauto using lookup_lt_Some).
    destruct (lookup_lt_is_Some_2 fl i Hi) as [d Hd].
    rewrite (IH (zip_with orb claimed fl) (c || d)).
    + rewrite claimed_by_some_cons, Hd. simpl. rewrite orb_assoc. reflexivity.
    + rewrite lookup_zip_with, Hc. simpl. rewrite Hd. reflexivity.
    + rewrite length_zip_with_l_eq by congruence. exact Hlen.
Qed.

Lemma fold_zip_with_orb_length (flags : list (list bool)) :
  forall claimed : list bool,
    Forall (fun fl => length fl = length claimed) flags ->
    length (fold_left (zip_with orb) flags claimed) = length claimed.
Proof.
  induction flags as [|fl flags IH]; intros claimed Hlen; [reflexivity|].
  apply Forall_cons in Hlen as [Hfl Hlen]. simpl.
  rewrite IH; rewrite length_zip_with_l_eq by congruence;
    [reflexivity | exact Hlen].
Qed.

(** [claim_pass] on live vehicles: each vehicle runs [check_ownership] on
    the boxes of the frame, and the flags are the position-wise
    disjunction. *)
Lemma claim_pass_spec (boxes : list Box.t) (vs : list Vehicle.t) :
  forall claimed : list bool,
    Forall live vs ->
    exists vs' flags,
      Tracker.claim_pass vs boxes claimed =
        Some (vs', fold_left (zip_with orb) flags claimed) /\
      Forall3 (fun v v' fl => Vehicle.check_ownership v boxes = Some (v', fl))
              vs vs' flags /\
      Forall (fun fl => length fl = length boxes) flags.
Proof.
  induction vs as [|v vs IH]; intros claimed Hlive.
  - exists [], []. repeat split; constructor.
  - apply Forall_cons in Hlive as [Hv Hvs].
    destruct (check_ownership_live v boxes Hv) as (v' & fl & E & Hfl & _).
    destruct (IH (zip_with orb claimed fl) Hvs) as (vs' & flags & E' & H3 & Hl).
    exists (v' :: vs'), (fl :: flags). simpl. rewrite E. simpl. rewrite E'.
    split; [reflexivity|]. split; constructor; assumption.
Qed.

(** The second loop of [update_vehicles] creates one vehicle for every
    box whose flag is false, in the order of the boxes. *)
Lemma spawn_spec (ws : Z) (flags : list (list bool)) (boxes : list Box.t) :
  forall (claimed : list bool) (g : nat -> nat),
    length claimed = length boxes ->
    (forall i, (i < length boxes)%nat ->
               claimed !! i = Some (claimed_by_some flags (g i))) ->
    Tracker.spawn ws claimed boxes =
    map (fun b => Vehicle.init b ws)
        (omap (fun ib : nat * Box.t =>
                 if claimed_by_some flags ib.1 then None else Some ib.2)
              (imap (fun i b => (g i, b)) boxes)).
Proof.
  induction boxes as [|b boxes IH]; intros claimed g Hlen Hc.
  - destruct claimed; reflexivity.
  - destruct claimed as [|c claimed]; [discriminate|].
    pose proof (Hc 0%nat ltac:(simpl; lia)) as H0. simpl in H0.
    injection H0 as ->.
    simpl. rewrite (IH claimed (fun i => g (S i))).
    + destruct (claimed_by_some flags (g 0%nat)); reflexivity.
    + simpl in Hlen. lia.
    + intros i Hi. apply (Hc (S i)). simpl. lia.
Qed.

(** [update_vehicles] on live vehicles, as one equation. *)
Lemma update_vehicles_spec (box_tuples : list BoxTuple) (self : Tracker.t) :
  Forall live (Tracker.vehicles self) ->
  exists vs' flags,
    Tracker.update_vehicles box_tuples self =
      Some (Tracker.set_vehicles self
              (vs' ++ map (fun b => Vehicle.init b
                                      (Tracker.vehicle_window_size self))
                          (unclaimed_boxes flags (map Box.init box_tuples)))) /\
    Forall3 (fun v v' fl =>
               Vehicle.check_ownership v (map Box.init box_tuples)
               = Some (v', fl))
            (Tracker.vehicles self) vs' flags.
Proof.
  intros Hlive. set (boxes := map Box.init box_tuples).
  destruct (claim_pass_spec boxes (Tracker.vehicles self)
              (replicate (length boxes) false) Hlive)
    as (vs' & flags & E & H3 & Hl).
  exists vs', flags. split; [|exact H3].
  unfold Tracker.update_vehicles. fold boxes. rewrite E. simpl.
  do 3 f_equal. unfold unclaimed_boxes. apply spawn_spec.
  - rewrite fold_zip_with_orb_length; rewrite length_replicate;
      [reflexivity | exact Hl].
  - intros i Hi.
    rewrite (fold_zip_with_orb_lookup flags i _ false).
    + reflexivity.
    + apply lookup_replicate_2. exact Hi.
    + rewrite length_replicate. exact Hl.
Qed.

Lemma omap_unclaimed_nil (l : list Box.t) :
  forall g : nat -> nat,
    omap (fun ib : nat * Box.t =>
            if claimed_by_some [] ib.1 then None else Some ib.2)
         (imap (fun i b => (g i, b)) l) = l.
Proof.
  induction l as [|b l IH]; intros g; [reflexivity|].
  simpl. f_equal. apply (IH (fun i => g (S i))).
Qed.

(** Without vehicles no box is claimed. *)
Lemma unclaimed_boxes_nil (boxes : list Box.t) :
  unclaimed_boxes [] boxes = boxes.
Proof. apply (omap_unclaimed_nil boxes (fun i => i)). Qed.

(** C9: [update_vehicles] on a tracker whose vehicles are live.  Every
    vehicle of the list runs [check_ownership] on the boxes of the frame;
    after them come the new vehicles, one for every box that none of those
    vehicles claimed, in the order of the boxes, each with that box as its
    representative, a window holding just that box, [frames_detected = 1]
    and [frames_since_detected = 0].  Only the vehicles that were in the
    list before the call take part in the claiming, so with an empty list
    every box, overlapping or not, gets a vehicle of its own. *)
Theorem C9_update_vehicles (box_tuples : list BoxTuple) (self : Tracker.t) :
  Forall live (Tracker.vehicles self) ->
  let boxes := map Box.init box_tuples in
  let fresh b :=
    Vehicle.mk (Some b) (Tracker.vehicle_window_size self) [b] 0 1 in
  exists self' vs' flags,
    Tracker.update_vehicles box_tuples self = Some self' /\
    Forall3 (fun v v' fl => Vehicle.check_ownership v boxes = Some (v', fl))
            (Tracker.vehicles self) vs' flags /\
    Tracker.vehicles self' = vs' ++ map fresh (unclaimed_boxes flags boxes) /\
    (Tracker.vehicles self = [] -> Tracker.vehicles self' = map fresh boxes).
Proof.
  intros Hlive boxes fresh.
  destruct (update_vehicles_spec box_tuples self Hlive)
    as (vs' & flags & E & H3).
  eexists _, vs', flags. split; [exact E|]. split; [exact H3|].
  split; [reflexivity|].
  intros Hnil. rewrite Hnil in H3. inversion H3; subst. simpl.
  rewrite unclaimed_boxes_nil. reflexivity.
Qed.

(** The vehicle on [((0,0),(10,10))] claims [((2,2),(12,12))]; the two
    far boxes overlap each other, are claimed by nobody, and each gets a
    vehicle. *)
Lemma C9_update_vehicles_witness :
  exists self' v',
    Tracker.update_vehicles boxes_near_far_far tracker_one_vehicle
      = Some self' /\
    Tracker.vehicles self' =
      [v'; Vehicle.init (Box.init ((100, 100), (120, 120))) 7;
           Vehicle.init (Box.init ((105, 105), (125, 125))) 7] /\
    0 < Box.get_overlap_area (Box.init ((100, 100), (120, 120)))
                             (Box.init ((105, 105), (125, 125))).
Proof.
  destruct (C9_update_vehicles boxes_near_far_far tracker_one_vehicle)
    as (self' & vs' & flags & E & _).
  - repeat constructor; discriminate.
  - vm_compute in E. injection E as <-.
    eexists _, _. split; [reflexivity|]. split; reflexivity.
Defined.

(** ** Tracker: what a [track] call maintains *)

Lemma vehicle_ok_live (vws : Z) (v : Vehicle.t) : vehicle_ok vws v -> live v.
Proof. intros (Hb & Hn & _). split; assumption. Qed.

Lemma vehicle_init_ok (vws : Z) (b : Box.t) : vehicle_ok vws (Vehicle.init b vws).
Proof.
  split; [discriminate|]. split; [discriminate|]. split; [reflexivity|].
  simpl. lia.
Qed.

Lemma check_ownership_kept (vws : Z) (v v' : Vehicle.t) bxs fl :
  vehicle_ok vws v ->
  Vehicle.check_ownership v bxs = Some (v', fl) ->
  vehicle_kept vws v'.
Proof.
  intros Hok E. pose proof Hok as (_ & _ & Hw & Hlen).
  destruct (check_ownership_live v bxs (vehicle_ok_live vws v Hok))
    as (v1 & fl1 & E1 & _ & Hn1 & Hw1 & _ & Hlen1).
  rewrite E in E1. injection E1 as <- <-.
  split; [exact Hn1|]. split; [congruence|].
  intros Hpos. rewrite <- Hw in *. apply Hlen1; [exact Hpos|].
  apply Hlen. exact Hpos.
Qed.

Lemma claim_pass_kept (vws : Z) (box_tuples : list BoxTuple)
    (vs vs' : list Vehicle.t) (flags : list (list bool)) :
  Forall (vehicle_ok vws) vs ->
  Forall3 (fun v v' fl =>
             Vehicle.check_ownership v (map Box.init box_tuples)
             = Some (v', fl)) vs vs' flags ->
  Forall (vehicle_kept vws) vs'.
Proof.
  intros Hall H3. induction H3 as [|v v' fl l k k' E _ IH]; [constructor|].
  apply Forall_cons in Hall as [Hv Hall]. constructor.
  - eapply check_ownership_kept; eassumption.
  - apply IH. exact Hall.
Qed.

Lemma check_box_change_cases (boxes : list BoxTuple) (self : Tracker.t) :
  Tracker.check_box_change boxes self = self \/
  Tracker.check_box_change boxes self =
  Tracker.set_heatmap_boxes_count (Tracker.reset_vehicles self)
    (Z.of_nat (length boxes)).
Proof.
  unfold Tracker.check_box_change.
  destruct (negb _); [|left; reflexivity].
  destruct (Tracker.count_settled _ _ _); [right|left]; reflexivity.
Qed.

(** The part of [track] after [smooth_heatmaps], on a tracker that
    satisfies the invariant: it does not raise and re-establishes the
    invariant. *)
Lemma track_tail_inv (hws : Z) (tpf : Q) (vws : Z) (self : Tracker.t)
    (search_result : Grid * list BoxTuple) (heatmap : Grid)
    (boxes : list BoxTuple) :
  tracker_inv hws tpf vws self ->
  exists self1,
    Tracker.update_vehicles boxes
      (Tracker.check_box_change boxes
         (Tracker.add_smoothed_frame heatmap boxes
            (Tracker.add_frame search_result self))) = Some self1 /\
    tracker_inv hws tpf vws (Tracker.remove_vehicles self1).
Proof.
  intros (Hh & Ht & Hv & Hvs & Hlen).
  set (s1 := Tracker.add_smoothed_frame heatmap boxes
               (Tracker.add_frame search_result self)).
  assert (Hvs2 : Forall (vehicle_ok vws)
                   (Tracker.vehicles (Tracker.check_box_change boxes s1))).
  { destruct (check_box_change_cases boxes s1) as [-> | ->];
      [exact Hvs | constructor]. }
  assert (Hfields :
            Tracker.heatmap_window_size (Tracker.check_box_change boxes s1) = hws /\
            Tracker.heatmap_threshold_per_frame (Tracker.check_box_change boxes s1) = tpf /\
            Tracker.vehicle_window_size (Tracker.check_box_change boxes s1) = vws /\
            Tracker.frames (Tracker.check_box_change boxes s1) =
              Tracker.push_bounded (Frame.mk search_result.1 search_result.2)
                (Tracker.frames self) hws /\
            Tracker.smoothed_frames (Tracker.check_box_change boxes s1) =
              Tracker.push_bounded (Frame.mk heatmap boxes)
                (Tracker.smoothed_frames self) hws).
  { destruct (check_box_change_cases boxes s1) as [-> | ->]; simpl;
      rewrite Hh; repeat split; assumption. }
  destruct Hfields as (Hh2 & Ht2 & Hv2 & Hf2 & Hs2).
  destruct (update_vehicles_spec boxes (Tracker.check_box_change boxes s1))
    as (vs' & flags & E & H3).
  { eapply Forall_impl; [exact Hvs2 | apply vehicle_ok_live]. }
  eexists. split; [exact E|].
  split; [exact Hh2|]. split; [exact Ht2|]. split; [exact Hv2|]. split.
  - rewrite remove_vehicles_filter. simpl.
    apply Forall_forall. intros v Hin.
    apply list_elem_of_filter in Hin as [Hbox Hin].
    split; [exact Hbox|].
    apply elem_of_app in Hin as [Hin|Hin].
    + pose proof (claim_pass_kept vws boxes _ _ _ Hvs2 H3) as Hkept.
      rewrite Forall_forall in Hkept. apply Hkept. exact Hin.
    + rewrite Hv2 in Hin. apply list_elem_of_In, in_map_iff in Hin.
      destruct Hin as (b & <- & _). apply vehicle_init_ok.
  - intros Hpos. specialize (Hlen Hpos) as [Hlf Hls]. simpl.
    rewrite Hf2, Hs2. split; apply push_bounded_length; assumption.
Qed.

Lemma init_inv (hws : Z) (tpf : Q) (vws : Z) (self : Tracker.t) :
  Tracker.init hws tpf vws = Some self -> tracker_inv hws tpf vws self.
Proof.
  intros E. injection E as <-. repeat split; try reflexivity; simpl;
    try constructor; lia.
Qed.

Lemma track_inv (label_bboxes : Grid -> list BoxTuple)
    (hws : Z) (tpf : Q) (vws : Z) (self self' : Tracker.t)
    (search_result : Grid * list BoxTuple) (drawn : list BoxTuple) :
  tracker_inv hws tpf vws self ->
  Tracker.track label_bboxes search_result self = Some (self', drawn) ->
  tracker_inv hws tpf vws self'.
Proof.
  intros Hinv E. unfold Tracker.track in E.
  destruct (Tracker.smooth_heatmaps label_bboxes
              (Tracker.add_frame search_result self)) as [[heatmap boxes]|];
    [|discriminate].
  simpl in E.
  destruct (track_tail_inv hws tpf vws self search_result heatmap boxes Hinv)
    as (self1 & E1 & Hinv1).
  rewrite E1 in E. simpl in E. injection E as <- _. exact Hinv1.
Qed.

Lemma reachable_inv (label_bboxes : Grid -> list BoxTuple)
    (hws : Z) (tpf : Q) (vws : Z) (self : Tracker.t) :
  Tracker.reachable label_bboxes hws tpf vws self ->
  tracker_inv hws tpf vws self.
Proof.
  induction 1 as [self E | self sr self' drawn _ IH E].
  - apply init_inv. exact E.
  - eapply track_inv; eassumption.
Qed.

Lemma boost_heatmap_total (vs : list Vehicle.t) :
  forall heatmap : Grid,
    (forall v, v ∈ vs -> Vehicle.box v <> None) ->
    exists out, Tracker.boost_heatmap heatmap vs = Some out.
Proof.
  induction vs as [|v vs IH]; intros heatmap Hvs; [eexists; reflexivity|].
  simpl. assert (Hvs' : forall v', v' ∈ vs -> Vehicle.box v' <> None)
    by (intros v' Hin; apply Hvs; right; exact Hin).
  destruct (24 <? Vehicle.frames_detected v); [|apply IH, Hvs'].
  destruct (Vehicle.box v) as [b|] eqn:Eb.
  - simpl. apply IH, Hvs'.
  - exfalso. apply (Hvs v (list_elem_of_here _ _)). exact Eb.
Qed.

Lemma reachable_after_one_frame :
  Tracker.reachable label_one_box 10 (17 # 10)%Q 7 tracker_after_one_frame.
Proof.
  apply (Tracker.reachable_track label_one_box 10 (17 # 10)%Q 7
           (Tracker.mk 10 (17 # 10)%Q 7 [] [] [] 0) search_result_5
           tracker_after_one_frame [((0, 0), (10, 10))]).
  - apply Tracker.reachable_init. reflexivity.
  - vm_compute. reflexivity.
Defined.

(** C7: in every state that [track] calls reach from a tracker built with
    positive window sizes, the raw and the smoothed history hold at most
    [heatmap_window_size] entries and the window of every vehicle holds at
    most [vehicle_window_size] boxes.  The window bound holds again right
    after every claim: a successful [check_ownership_single] on a vehicle
    within the bound returns a vehicle within the bound. *)
Theorem C7_capacity (label_bboxes : Grid -> list BoxTuple)
    (hws : Z) (tpf : Q) (vws : Z) (self : Tracker.t) :
  0 < hws -> 0 < vws ->
  Tracker.reachable label_bboxes hws tpf vws self ->
  Z.of_nat (length (Tracker.frames self)) <= hws /\
  Z.of_nat (length (Tracker.smoothed_frames self)) <= hws /\
  (forall v, v ∈ Tracker.vehicles self ->
             Z.of_nat (length (Vehicle.boxes v)) <= vws) /\
  (forall v other v',
     Vehicle.window_size v = vws ->
     Vehicle.boxes v <> [] ->
     Z.of_nat (length (Vehicle.boxes v)) <= vws ->
     Vehicle.check_ownership_single v other = Some (v', true) ->
     Vehicle.window_size v' = vws /\
     Vehicle.boxes v' <> [] /\
     Z.of_nat (length (Vehicle.boxes v')) <= vws).
Proof.
  intros Hh Hv Hreach.
  destruct (reachable_inv _ _ _ _ _ Hreach) as (_ & _ & _ & Hvs & Hlen).
  destruct Hlen as [Hf Hs]; [lia|].
  split; [exact Hf|]. split; [exact Hs|]. split.
  - intros v Hin. rewrite Forall_forall in Hvs.
    destruct (Hvs v Hin) as (_ & _ & _ & Hbound). apply Hbound. exact Hv.
  - intros v other v' Hw Hne Hbound E.
    destruct (Vehicle.box v) as [b|] eqn:Eb;
      [|unfold Vehicle.check_ownership_single in E; rewrite Eb in E;
        discriminate].
    rewrite (check_ownership_single_eq v b other Eb Hne) in E.
    destruct (Vehicle.owns b other); [|discriminate].
    injection E as <-. simpl. split; [exact Hw|].
    split; [apply pushed_window_nonempty, Hne|].
    rewrite <- Hw. apply pushed_window_length; rewrite Hw; assumption.
Qed.

(** The driver's tracker after its first frame. *)
Lemma C7_capacity_witness :
  Z.of_nat (length (Tracker.frames tracker_after_one_frame)) <= 10 /\
  Z.of_nat (length (Tracker.smoothed_frames tracker_after_one_frame)) <= 10 /\
  (forall v, v ∈ Tracker.vehicles tracker_after_one_frame ->
             Z.of_nat (length (Vehicle.boxes v)) <= 7).
Proof.
  destruct (C7_capacity label_one_box 10 (17 # 10)%Q 7 tracker_after_one_frame
              ltac:(reflexivity) ltac:(reflexivity) reachable_after_one_frame)
    as (Hf & Hs & Hv & _).
  exact (conj Hf (conj Hs Hv)).
Defined.

(** C8: [remove_vehicles] leaves no vehicle without a box, so in every
    state that [track] calls reach every vehicle of the object list has a
    box, and [boost_heatmap], which the next [track] call runs on that
    list, returns an array for every heat map: it never reads the corners
    of a missing box. *)
Theorem C8_no_missing_box (label_bboxes : Grid -> list BoxTuple)
    (hws : Z) (tpf : Q) (vws : Z) (self : Tracker.t) :
  Tracker.reachable label_bboxes hws tpf vws self ->
  (forall tracker v,
     v ∈ Tracker.vehicles (Tracker.remove_vehicles tracker) ->
     Vehicle.box v <> None) /\
  (forall v, v ∈ Tracker.vehicles self -> Vehicle.box v <> None) /\
  (forall heatmap,
     exists out, Tracker.boost_heatmap heatmap (Tracker.vehicles self) = Some out).
Proof.
  intros Hreach.
  destruct (reachable_inv _ _ _ _ _ Hreach) as (_ & _ & _ & Hvs & _).
  rewrite Forall_forall in Hvs.
  assert (Hbox : forall v, v ∈ Tracker.vehicles self -> Vehicle.box v <> None)
    by (intros v Hin; apply (Hvs v Hin)).
  split; [|split].
  - intros tracker v Hin. apply remove_vehicles_elem in Hin. apply Hin.
  - exact Hbox.
  - intros heatmap. apply boost_heatmap_total. exact Hbox.
Qed.

(** The driver's tracker after its first frame. *)
Lemma C8_no_missing_box_witness :
  (forall v, v ∈ Tracker.vehicles tracker_after_one_frame ->
             Vehicle.box v <> None) /\
  exists out,
    Tracker.boost_heatmap [[5%Q]] (Tracker.vehicles tracker_after_one_frame)
    = Some out.
Proof.
  destruct (C8_no_missing_box label_one_box 10 (17 # 10)%Q 7
              tracker_after_one_frame reachable_after_one_frame)
    as (_ & Hbox & Hboost).
  exact (conj Hbox (Hboost [[5%Q]])).
Defined.

(** ** Tracker: [track] does not raise on frames of one shape *)








(** A tracker built with [vehicle_window_size = 0] and a zero threshold is
    accepted and processes a frame; the vehicle it creates has a window of
    one box, more than the configured size.  The positivity assumed in C7
    is therefore needed. *)
Lemma nonpositive_window_exceeded :
  exists start self' drawn v,
    Tracker.init 1 0%Q 0 = Some start /\
    Tracker.track label_one_box search_result_5 start = Some (self', drawn) /\
    Tracker.vehicles self' = [v] /\
    Tracker.vehicle_window_size self' < Z.of_nat (length (Vehicle.boxes v)).
Proof.
  eexists _, _, _, _. split; [reflexivity|].
  split; [vm_compute; reflexivity|]. split; reflexivity.
Qed.

(* ===================================================================== *)
(** * Part 3: further properties of the code *)
(* ===================================================================== *)

(** ** Geometry *)

Lemma get_overlap_area_comm (a b : Box.t) :
  Box.get_overlap_area a b = Box.get_overlap_area b a.
Proof.
  unfold Box.get_overlap_area. cbv zeta.
  rewrite (Z.min_comm (Point.x (Box.bottom_right a))),
          (Z.max_comm (Point.x (Box.top_left a))),
          (Z.min_comm (Point.y (Box.bottom_right a))),
          (Z.max_comm (Point.y (Box.top_left a))). reflexivity.
Qed.

(** [get_overlap_area] is symmetric and never negative, and it is positive
    exactly when the two boxes share an interval of positive length on
    both axes. *)
Theorem overlap_area_symmetric_positive (a b : Box.t) :
  Box.get_overlap_area a b = Box.get_overlap_area b a /\
  0 <= Box.get_overlap_area a b /\
  (0 < Box.get_overlap_area a b <->
   Z.max (Point.x (Box.top_left a)) (Point.x (Box.top_left b))
     < Z.min (Point.x (Box.bottom_right a)) (Point.x (Box.bottom_right b)) /\
   Z.max (Point.y (Box.top_left a)) (Point.y (Box.top_left b))
     < Z.min (Point.y (Box.bottom_right a)) (Point.y (Box.bottom_right b))).
Proof.
  split; [|split].
  - apply get_overlap_area_comm.
  - apply get_overlap_area_nonneg.
  - unfold Box.get_overlap_area. cbv zeta.
    set (w := Z.min _ _ - Z.max _ _). set (h := Z.min _ _ - Z.max _ _).
    assert (Hw : Z.max 0 w = 0 \/ (0 < w /\ Z.max 0 w = w)) by lia.
    assert (Hh : Z.max 0 h = 0 \/ (0 < h /\ Z.max 0 h = h)) by lia.
    subst w h. split.
    + intros Hpos. destruct Hw as [Hw|[Hw _]]; [rewrite Hw in Hpos; lia|].
      destruct Hh as [Hh|[Hh _]]; [rewrite Hh in Hpos; lia|]. lia.
    + intros [Hx Hy]. destruct Hw as [Hw|[Hw Ew]]; [lia|].
      destruct Hh as [Hh|[Hh Eh]]; [lia|]. rewrite Ew, Eh. nia.
Qed.

(** For boxes whose corners are in order, the overlap of a box with itself
    is its area, and no overlap exceeds the area of either box. *)
Theorem overlap_area_within_area (a b : Box.t) :
  well_formed a -> well_formed b ->
  Box.get_overlap_area a a = Box.get_area a /\
  0 <= Box.get_area a /\
  Box.get_overlap_area a b <= Box.get_area a /\
  Box.get_overlap_area a b <= Box.get_area b.
Proof.
  intros [Hax Hay] [Hbx Hby].
  unfold Box.get_overlap_area, Box.get_area. cbv zeta.
  repeat split.
  - rewrite !Z.min_id, !Z.max_id. f_equal; lia.
  - nia.
  - apply Z.mul_le_mono_nonneg; lia.
  - apply Z.mul_le_mono_nonneg; lia.
Qed.

Lemma overlap_area_within_area_witness :
  Box.get_overlap_area box_0_10 box_0_10 = 100 /\
  Box.get_overlap_area box_0_10 box_2_12 <= 100.
Proof.
  destruct (overlap_area_within_area box_0_10 box_2_12) as (E & _ & H & _).
  - split; discriminate.
  - split; discriminate.
  - split; [exact E | exact H].
Defined.

Lemma as_tuple_init (tuple : BoxTuple) :
  Box.as_tuple (Box.init tuple) = tuple.
Proof. destruct tuple as [[x0 y0] [x1 y1]]. reflexivity. Qed.

(** Round trip of a box through its corner pair: [as_tuple] of the box
    built from a pair is that pair, so rebuilding a box from its own
    [as_tuple] gives the same box, centre included. *)
Theorem box_tuple_round_trip (tuple : BoxTuple) :
  Box.as_tuple (Box.init tuple) = tuple /\
  Box.init (Box.as_tuple (Box.init tuple)) = Box.init tuple.
Proof.
  split; [apply as_tuple_init | rewrite as_tuple_init; reflexivity].
Qed.

(** The centre that [get_center] computes is the floor of the midpoint: it
    lies between the two coordinates, and twice the centre is the sum of
    the coordinates or one less. *)
Theorem get_center_between (a b : Point.t) :
  let c := get_center a b in
  Z.min (Point.x a) (Point.x b) <= Point.x c <= Z.max (Point.x a) (Point.x b) /\
  Z.min (Point.y a) (Point.y b) <= Point.y c <= Z.max (Point.y a) (Point.y b) /\
  2 * Point.x c <= Point.x a + Point.x b <= 2 * Point.x c + 1 /\
  2 * Point.y c <= Point.y a + Point.y b <= 2 * Point.y c + 1.
Proof.
  unfold get_center. simpl.
  pose proof (Z.div_mod (Point.x a + Point.x b) 2 ltac:(lia)) as Hx.
  pose proof (Z.mod_pos_bound (Point.x a + Point.x b) 2 ltac:(lia)) as Hx'.
  pose proof (Z.div_mod (Point.y a + Point.y b) 2 ltac:(lia)) as Hy.
  pose proof (Z.mod_pos_bound (Point.y a + Point.y b) 2 ltac:(lia)) as Hy'.
  lia.
Qed.

(** [get_distance] is a distance: never negative, symmetric, and zero
    exactly between a point and itself. *)
Theorem get_distance_metric (a b : Point.t) :
  (0 <= Point.get_distance a b)%R /\
  Point.get_distance a b = Point.get_distance b a /\
  (Point.get_distance a b = 0%R <-> a = b).
Proof.
  unfold Point.get_distance.
  pose proof (get_distance_sq_nonneg a b) as Hd.
  assert (Hd' : (0 <= IZR (Point.get_distance_sq a b))%R)
    by (apply IZR_le in Hd; exact Hd).
  split; [apply sqrt_pos|]. split.
  - f_equal. f_equal. unfold Point.get_distance_sq. ring.
  - split.
    + intros E. apply sqrt_eq_0 in E; [|exact Hd'].
      apply eq_IZR in E. unfold Point.get_distance_sq in E.
      destruct a as [ax ay], b as [bx by_]. simpl in E.
      assert (ax = bx) by nia. assert (ay = by_) by nia. congruence.
    + intros ->. unfold Point.get_distance_sq.
      replace ((Point.x b - Point.x b) ^ 2 + (Point.y b - Point.y b) ^ 2)
        with 0 by ring.
      apply sqrt_0.
Qed.

(** The claim test of [check_ownership_single] does not depend on which of
    the two boxes is the representative, and a box always passes against
    itself, also when its area is zero: its centre distance is 0. *)
Theorem claim_test_symmetric (a b : Box.t) :
  Vehicle.owns a b = Vehicle.owns b a /\
  Box.get_center_distance a b = Box.get_center_distance b a /\
  Vehicle.owns a a = true.
Proof.
  assert (Hsq : forall p q, Point.get_distance_sq p q = Point.get_distance_sq q p)
    by (intros p q; unfold Point.get_distance_sq; ring).
  split; [|split].
  - unfold Vehicle.owns, Box.center_distance_lt.
    rewrite (get_overlap_area_comm a b), Hsq. reflexivity.
  - unfold Box.get_center_distance, Point.get_distance. rewrite Hsq.
    reflexivity.
  - unfold Vehicle.owns, Box.center_distance_lt, Point.get_distance_sq.
    replace ((Point.x (Box.center a) - Point.x (Box.center a)) ^ 2
             + (Point.y (Box.center a) - Point.y (Box.center a)) ^ 2)
      with 0 by ring.
    apply orb_true_r.
Qed.

(** A candidate that does not overlap the representative box and whose
    centre is at least 20 away along one axis is never claimed. *)
Theorem claim_test_far (a b : Box.t) :
  Box.get_overlap_area a b = 0 ->
  20 <= Z.abs (Point.x (Box.center a) - Point.x (Box.center b)) \/
  20 <= Z.abs (Point.y (Box.center a) - Point.y (Box.center b)) ->
  Vehicle.owns a b = false.
Proof.
  intros Hov Hfar. unfold Vehicle.owns, Box.center_distance_lt.
  rewrite Hov. simpl. apply Z.ltb_ge. unfold Point.get_distance_sq.
  destruct Hfar; nia.
Qed.

Lemma claim_test_far_witness : Vehicle.owns box_0_10 box_far = false.
Proof.
  apply claim_test_far; [reflexivity|]. left. vm_compute. discriminate.
Defined.

(** ** Vehicle *)

Lemma update_box_fields (self self' : Vehicle.t) :
  Vehicle.update_box self = Some self' ->
  Vehicle.window_size self' = Vehicle.window_size self /\
  Vehicle.frames_since_detected self' = Vehicle.frames_since_detected self /\
  Vehicle.frames_detected self' = Vehicle.frames_detected self /\
  Vehicle.boxes self' = Vehicle.boxes self /\
  Vehicle.box self' <> None.
Proof.
  unfold Vehicle.update_box. cbv zeta. destruct (_ =? 0); [discriminate|].
  intros E. injection E as <-. simpl.
  repeat split; intros; try reflexivity; discriminate.
Qed.

Lemma check_ownership_single_fields (self : Vehicle.t) (other : Box.t)
    (r : Vehicle.t * bool) :
  Vehicle.check_ownership_single self other = Some r ->
  Vehicle.window_size r.1 = Vehicle.window_size self /\
  Vehicle.frames_since_detected r.1 = Vehicle.frames_since_detected self /\
  Vehicle.frames_detected r.1 = Vehicle.frames_detected self /\
  (r.2 = false -> r.1 = self) /\
  (r.2 = true -> Vehicle.box r.1 <> None).
Proof.
  unfold Vehicle.check_ownership_single.
  destruct (Vehicle.box self) as [b|]; [|discriminate].
  cbn [mbind option_bind].
  destruct (Vehicle.owns b other).
  - destruct (Vehicle.update_box _) as [s1|] eqn:E1; [|discriminate].
    cbn [mbind option_bind]. intros E. injection E as <-.
    destruct (update_box_fields _ _ E1) as (Hw & Hs & Hd & _ & Hb).
    simpl in *. repeat split; intros; try assumption; discriminate.
  - intros E. injection E as <-. simpl.
  repeat split; intros; try reflexivity; discriminate.
Qed.

Lemma claim_each_fields (bxs : list Box.t) :
  forall (self : Vehicle.t) (r : Vehicle.t * list bool),
    Vehicle.claim_each self bxs = Some r ->
    Vehicle.window_size r.1 = Vehicle.window_size self /\
    Vehicle.frames_since_detected r.1 = Vehicle.frames_since_detected self /\
    Vehicle.frames_detected r.1 = Vehicle.frames_detected self /\
    length r.2 = length bxs /\
    (existsb (fun c => c) r.2 = false -> r.1 = self) /\
    (existsb (fun c => c) r.2 = true -> Vehicle.box r.1 <> None).
Proof.
  induction bxs as [|b bxs IH]; intros self r E.
  - injection E as <-. simpl.
    repeat split; intros; try reflexivity; discriminate.
  - simpl in E.
    destruct (Vehicle.check_ownership_single self b) as [r1|] eqn:E1;
      [|discriminate]. simpl in E.
    destruct (Vehicle.claim_each r1.1 bxs) as [rs|] eqn:E2; [|discriminate].
    injection E as <-. simpl.
    destruct (check_ownership_single_fields _ _ _ E1)
      as (Hw1 & Hs1 & Hd1 & Hf1 & Ht1).
    destruct (IH _ _ E2) as (Hw2 & Hs2 & Hd2 & Hl2 & Hf2 & Ht2).
    split; [congruence|]. split; [congruence|]. split; [congruence|].
    split; [congruence|]. split.
    + intros H. apply orb_false_iff in H as [Hc Hcs].
      rewrite (Hf2 Hcs). apply Hf1. exact Hc.
    + intros H. destruct (existsb (fun c => c) rs.2) eqn:Ers.
      * apply Ht2. reflexivity.
      * rewrite (Hf2 eq_refl). apply Ht1.
        rewrite orb_false_r in H. exact H.
Qed.

(** A frame moves the counters of a live vehicle once, however many boxes
    it claims: with at least one claim the absence counter is 0, the
    detection count is one higher and the vehicle keeps a box; without a
    claim the vehicle is as [missed_frame] describes. *)
Theorem check_ownership_counters (self : Vehicle.t) (bxs : list Box.t) :
  live self ->
  exists self' claimed,
    Vehicle.check_ownership self bxs = Some (self', claimed) /\
    length claimed = length bxs /\
    Vehicle.window_size self' = Vehicle.window_size self /\
    (existsb (fun c => c) claimed = true ->
     Vehicle.frames_since_detected self' = 0 /\
     Vehicle.frames_detected self' = Vehicle.frames_detected self + 1 /\
     Vehicle.box self' <> None) /\
    (existsb (fun c => c) claimed = false -> self' = missed_frame self).
Proof.
  intros Hlive.
  destruct (claim_each_live bxs self Hlive) as (s1 & cl & E1 & _).
  destruct (claim_each_fields _ _ _ E1) as (Hw & Hs & Hd & Hl & Hf & Ht).
  simpl in *. unfold Vehicle.check_ownership. rewrite E1. simpl.
  destruct (existsb (fun c => c) cl) eqn:Ecl.
  - eexists _, cl. split; [reflexivity|]. simpl.
    split; [exact Hl|]. split; [exact Hw|].
    split; [|intros H; congruence].
    intros _. split; [reflexivity|]. split; [congruence|]. apply Ht.
    reflexivity.
  - rewrite (Hf eq_refl). unfold missed_frame.
    destruct (_ <? _); eexists _, cl; (split; [reflexivity|]);
      (split; [exact Hl|]); (split; [reflexivity|]);
      (split; [intros H; congruence|]); reflexivity.
Qed.

Lemma check_ownership_counters_witness :
  exists self',
    Vehicle.check_ownership vehicle_0_10 [box_2_12; box_8_30; box_far]
    = Some (self', [true; true; false]) /\
    Vehicle.frames_since_detected self' = 0 /\
    Vehicle.frames_detected self' = 2.
Proof.
  destruct (check_ownership_counters vehicle_0_10 [box_2_12; box_8_30; box_far])
    as (self' & claimed & E & _ & _ & Hyes & _).
  - split; discriminate.
  - pose proof E as E'. vm_compute in E'. injection E' as _ <-.
    destruct (Hyes eq_refl) as (Hs & Hd & _).
    exists self'. split; [exact E|]. split; [exact Hs | exact Hd].
Defined.

Lemma check_ownership_nil (v : Vehicle.t) :
  Vehicle.check_ownership v [] = Some (missed_frame v, []).
Proof.
  unfold Vehicle.check_ownership, missed_frame. simpl.
  destruct (_ <? _); reflexivity.
Qed.

Lemma claim_pass_nil (vs : list Vehicle.t) :
  Tracker.claim_pass vs [] [] = Some (map missed_frame vs, []).
Proof.
  induction vs as [|v vs IH]; [reflexivity|].
  simpl. rewrite check_ownership_nil. simpl. rewrite IH. reflexivity.
Qed.

(** A frame without boxes is no error, whatever the state of the
    vehicles: [update_vehicles] creates no vehicle and every vehicle of
    the list ages by one missed frame. *)
Theorem update_vehicles_no_boxes (self : Tracker.t) :
  Tracker.update_vehicles [] self =
  Some (Tracker.set_vehicles self (map missed_frame (Tracker.vehicles self))).
Proof.
  unfold Tracker.update_vehicles. simpl. rewrite claim_pass_nil. simpl.
  rewrite app_nil_r. reflexivity.
Qed.

Lemma check_ownership_no_box (self : Vehicle.t) (b : Box.t)
    (bxs : list Box.t) :
  Vehicle.box self = None -> Vehicle.check_ownership self (b :: bxs) = None.
Proof.
  intros E. unfold Vehicle.check_ownership. simpl.
  unfold Vehicle.check_ownership_single. rewrite E. reflexivity.
Qed.

Lemma claim_pass_no_box (b : Box.t) (bxs : list Box.t) (v : Vehicle.t)
    (vs : list Vehicle.t) :
  v ∈ vs -> Vehicle.box v = None ->
  forall claimed, Tracker.claim_pass vs (b :: bxs) claimed = None.
Proof.
  intros Hin Hbox. induction Hin as [v vs|v w vs _ IH]; intros claimed.
  - cbn [Tracker.claim_pass]. rewrite check_ownership_no_box by exact Hbox.
    reflexivity.
  - cbn [Tracker.claim_pass].
    destruct (Vehicle.check_ownership w (b :: bxs)) as [r|]; [|reflexivity].
    simpl. rewrite IH by exact Hbox. reflexivity.
Qed.

(** [update_vehicles] raises when the frame has a box and some vehicle of
    the list has no box: the removal pass has to run before the next
    frame. *)
Theorem update_vehicles_needs_boxes (box_tuples : list BoxTuple)
    (self : Tracker.t) (v : Vehicle.t) :
  v ∈ Tracker.vehicles self -> Vehicle.box v = None -> box_tuples <> [] ->
  Tracker.update_vehicles box_tuples self = None.
Proof.
  intros Hin Hbox Hne. destruct box_tuples as [|bt bts]; [congruence|].
  unfold Tracker.update_vehicles. cbn [map].
  rewrite (claim_pass_no_box _ _ v) by assumption. reflexivity.
Qed.

Lemma update_vehicles_needs_boxes_witness :
  Tracker.update_vehicles [((0, 0), (10, 10))]
    (Tracker.mk 10 (17 # 10)%Q 7 [] [] [vehicle_0_10; vehicle_gone] 1) = None.
Proof.
  apply (update_vehicles_needs_boxes _ _ vehicle_gone);
    [right; left | reflexivity | discriminate].
Defined.

Lemma coordinate_sum_bounds (f : Box.t -> Z) (lo hi : Z) (w : list Box.t) :
  Forall (fun b => lo <= f b <= hi) w ->
  Z.of_nat (length w) * lo <= coordinate_sum f w <= Z.of_nat (length w) * hi.
Proof.
  induction 1 as [|b w Hb _ IH]; [simpl; lia|].
  simpl coordinate_sum. simpl length. rewrite Nat2Z.inj_succ. lia.
Qed.

Lemma coordinate_sum_le (f g : Box.t -> Z) (w : list Box.t) :
  Forall (fun b => f b <= g b) w -> coordinate_sum f w <= coordinate_sum g w.
Proof. induction 1 as [|b w Hb _ IH]; simpl; lia. Qed.

Lemma coordinate_mean_ge (f : Box.t -> Z) (lo : Z) (w : list Box.t) :
  w <> [] -> Forall (fun b => lo <= f b) w ->
  lo <= coordinate_sum f w / Z.of_nat (length w).
Proof.
  intros Hne Hall. assert (Hn : 0 < Z.of_nat (length w))
    by (destruct w; [congruence | simpl; lia]).
  apply Z.div_le_lower_bound; [exact Hn|].
  clear Hne Hn. induction Hall as [|b w Hb _ IH]; [simpl; lia|].
  simpl coordinate_sum. simpl length. rewrite Nat2Z.inj_succ. lia.
Qed.

Lemma coordinate_mean_le (f : Box.t -> Z) (hi : Z) (w : list Box.t) :
  w <> [] -> Forall (fun b => f b <= hi) w ->
  coordinate_sum f w / Z.of_nat (length w) <= hi.
Proof.
  intros Hne Hall. assert (Hn : 0 < Z.of_nat (length w))
    by (destruct w; [congruence | simpl; lia]).
  apply Z.div_le_upper_bound; [exact Hn|].
  clear Hne Hn. induction Hall as [|b w Hb _ IH]; [simpl; lia|].
  simpl coordinate_sum. simpl length. rewrite Nat2Z.inj_succ. lia.
Qed.

(** [update_box] on a non-empty window: the representative box lies in
    every rectangle that contains all boxes of the window, and when the
    corners of every box of the window are in order, so are the corners of
    the representative. *)
Theorem representative_within_window (self : Vehicle.t) :
  Vehicle.boxes self <> [] ->
  exists self' rep,
    Vehicle.update_box self = Some self' /\
    Vehicle.box self' = Some rep /\
    Vehicle.boxes self' = Vehicle.boxes self /\
    (Forall well_formed (Vehicle.boxes self) -> well_formed rep) /\
    (forall x_lo y_lo x_hi y_hi,
       Forall (inside x_lo y_lo x_hi y_hi) (Vehicle.boxes self) ->
       inside x_lo y_lo x_hi y_hi rep).
Proof.
  intros Hne. rewrite (update_box_mean self Hne).
  eexists _, _. split; [reflexivity|]. split; [reflexivity|].
  split; [reflexivity|]. split.
  - intros Hwf. unfold well_formed, corner_mean. simpl.
    assert (Hn : 0 < Z.of_nat (length (Vehicle.boxes self)))
      by (destruct (Vehicle.boxes self); [congruence | simpl; lia]).
    split; apply Z.div_le_mono; try exact Hn; apply coordinate_sum_le;
      (eapply Forall_impl; [exact Hwf|]); intros b Hb; apply Hb.
  - intros x_lo y_lo x_hi y_hi Hin. unfold inside, corner_mean. simpl.
    split; [|split; [|split]].
    + apply coordinate_mean_ge; [exact Hne|].
      eapply Forall_impl; [exact Hin|]. intros b Hb. apply Hb.
    + apply coordinate_mean_le; [exact Hne|].
      eapply Forall_impl; [exact Hin|]. intros b Hb. apply Hb.
    + apply coordinate_mean_ge; [exact Hne|].
      eapply Forall_impl; [exact Hin|]. intros b Hb. apply Hb.
    + apply coordinate_mean_le; [exact Hne|].
      eapply Forall_impl; [exact Hin|]. intros b Hb. apply Hb.
Qed.

Lemma representative_within_window_witness :
  exists self' rep,
    Vehicle.update_box
      (Vehicle.mk None 7 [box_2_12; box_0_10; box_8_30] 0 3) = Some self' /\
    Vehicle.box self' = Some rep /\
    well_formed rep /\ inside 0 0 30 12 rep.
Proof.
  destruct (representative_within_window
              (Vehicle.mk None 7 [box_2_12; box_0_10; box_8_30] 0 3))
    as (self' & rep & E & Hb & _ & Hwf & Hin); [discriminate|].
  exists self', rep. split; [exact E|]. split; [exact Hb|]. split.
  - apply Hwf. repeat constructor; discriminate.
  - apply Hin. repeat constructor; discriminate.
Defined.

Lemma check_ownership_fd (self : Vehicle.t) (bxs : list Box.t)
    (r : Vehicle.t * list bool) :
  Vehicle.check_ownership self bxs = Some r ->
  0 <= Vehicle.frames_detected self ->
  0 <= Vehicle.frames_detected r.1 <= Vehicle.frames_detected self + 1.
Proof.
  unfold Vehicle.check_ownership.
  destruct (Vehicle.claim_each self bxs) as [r1|] eqn:E1; [|discriminate].
  destruct (claim_each_fields _ _ _ E1) as (_ & _ & Hd & _).
  cbn [mbind option_bind]. cbv zeta.
  destruct (existsb _ _); [|destruct (_ <? _)];
    intros E; injection E as <-; simpl; lia.
Qed.

Lemma update_for_frames_fd (fs : list (list Box.t)) :
  forall self v : Vehicle.t,
    update_for_frames self fs = Some v ->
    0 <= Vehicle.frames_detected self ->
    0 <= Vehicle.frames_detected v
      <= Vehicle.frames_detected self + Z.of_nat (length fs).
Proof.
  induction fs as [|bxs fs IH]; intros self v E H0.
  - injection E as <-. simpl. lia.
  - cbn [update_for_frames] in E.
    destruct (Vehicle.check_ownership self bxs) as [r|] eqn:E1;
      [|discriminate].
    cbn [mbind option_bind] in E.
    pose proof (check_ownership_fd _ _ _ E1 H0) as H1.
    specialize (IH _ _ E ltac:(lia)). simpl length.
    rewrite Nat2Z.inj_succ. lia.
Qed.

(** A vehicle gains at most one detected frame per frame, so a vehicle
    that was created less than 24 frames ago has [frames_detected <= 24]
    and boosts no cell. *)
Theorem new_vehicle_not_boosted (b : Box.t) (ws : Z)
    (fs : list (list Box.t)) (v : Vehicle.t) :
  update_for_frames (Vehicle.init b ws) fs = Some v ->
  0 <= Vehicle.frames_detected v <= 1 + Z.of_nat (length fs) /\
  ((length fs < 24)%nat -> forall yi xi, boosts yi xi v = false).
Proof.
  intros E. pose proof (update_for_frames_fd fs _ _ E) as H. simpl in H.
  specialize (H ltac:(lia)). split; [lia|].
  intros Hlen yi xi. unfold boosts.
  destruct (Z.ltb_spec 24 (Vehicle.frames_detected v)); [lia | reflexivity].
Qed.

Lemma new_vehicle_not_boosted_witness :
  exists v,
    update_for_frames vehicle_0_10 [[box_2_12]; [box_far]; [box_2_12]] = Some v /\
    Vehicle.frames_detected v <= 4 /\ boosts 5 5 v = false.
Proof.
  destruct (update_for_frames vehicle_0_10
              [[box_2_12]; [box_far]; [box_2_12]]) as [v|] eqn:E;
    [|vm_compute in E; discriminate E].
  exists v. split; [reflexivity|].
  destruct (new_vehicle_not_boosted box_0_10 7 _ v E) as [H1 H2].
  split; [exact (proj2 H1) | apply H2; simpl; lia].
Defined.

(** ** Tracker: boosting and removal *)

Lemma boost_heatmap_returns (vs : list Vehicle.t) :
  forall heatmap : Grid,
    (forall v, v ∈ vs -> 24 < Vehicle.frames_detected v ->
               Vehicle.box v <> None) ->
    exists out, Tracker.boost_heatmap heatmap vs = Some out.
Proof.
  induction vs as [|v vs IH]; intros heatmap Hvs; [eexists; reflexivity|].
  assert (Hvs' : forall v', v' ∈ vs -> 24 < Vehicle.frames_detected v' ->
                            Vehicle.box v' <> None)
    by (intros v' Hin; apply Hvs; right; exact Hin).
  simpl. destruct (Z.ltb_spec 24 (Vehicle.frames_detected v)) as [Hfd|_];
    [|apply IH, Hvs'].
  destruct (Vehicle.box v) as [b|] eqn:Eb.
  - simpl. apply IH, Hvs'.
  - exfalso. apply (Hvs v (list_elem_of_here _ _) Hfd). exact Eb.
Qed.

(** [boost_heatmap] does not depend on the removal pass for its safety:
    on the list that [update_vehicles] leaves, in which vehicles may have
    lost their box, every vehicle without a box has [frames_detected = 0],
    and [boost_heatmap] returns for every heat map. *)
Theorem boost_safe_before_removal (box_tuples : list BoxTuple)
    (self : Tracker.t) :
  Forall live (Tracker.vehicles self) ->
  exists self',
    Tracker.update_vehicles box_tuples self = Some self' /\
    (forall v, v ∈ Tracker.vehicles self' -> Vehicle.box v = None ->
               Vehicle.frames_detected v = 0) /\
    (forall heatmap,
       exists out,
         Tracker.boost_heatmap heatmap (Tracker.vehicles self') = Some out).
Proof.
  intros Hlive.
  destruct (update_vehicles_spec box_tuples self Hlive)
    as (vs' & flags & E & H3).
  eexists. split; [exact E|].
  assert (Hnone : forall v,
             v ∈ Tracker.vehicles
                   (Tracker.set_vehicles self
                      (vs' ++ map (fun b => Vehicle.init b
                                     (Tracker.vehicle_window_size self))
                                  (unclaimed_boxes flags
                                     (map Box.init box_tuples)))) ->
             Vehicle.box v = None -> Vehicle.frames_detected v = 0).
  { simpl. intros v Hin Hbox. apply elem_of_app in Hin as [Hin|Hin].
    - clear E. induction H3 as [|v0 v0' fl0 l k k' E0 _ IH];
        [inversion Hin|].
      apply Forall_cons in Hlive as [Hv0 Hlive].
      apply elem_of_cons in Hin as [->|Hin]; [|apply IH; assumption].
      destruct (check_ownership_live v0 (map Box.init box_tuples) Hv0)
        as (v1 & fl1 & E1 & _ & _ & _ & Hfd & _).
      rewrite E0 in E1. injection E1 as <- <-. apply Hfd. exact Hbox.
    - apply list_elem_of_In, in_map_iff in Hin as (b & <- & _).
      discriminate. }
  split; [exact Hnone|].
  intros heatmap. apply boost_heatmap_returns. intros v Hin Hfd Hbox.
  specialize (Hnone v Hin Hbox). lia.
Qed.

Lemma boost_safe_before_removal_witness :
  exists self' out,
    Tracker.update_vehicles [((100, 100), (120, 120))]
      (Tracker.mk 10 (17 # 10)%Q 7 [] []
         [Vehicle.mk (Some box_0_10) 7 [box_0_10] 7 30] 1) = Some self' /\
    (exists v, v ∈ Tracker.vehicles self' /\ Vehicle.box v = None) /\
    Tracker.boost_heatmap ones_3x4 (Tracker.vehicles self') = Some out.
Proof.
  destruct (boost_safe_before_removal [((100, 100), (120, 120))]
              (Tracker.mk 10 (17 # 10)%Q 7 [] []
                 [Vehicle.mk (Some box_0_10) 7 [box_0_10] 7 30] 1))
    as (self' & E & _ & Hboost).
  - repeat constructor; discriminate.
  - destruct (Hboost ones_3x4) as [out Eout].
    exists self', out. split; [exact E|]. split; [|exact Eout].
    vm_compute in E. injection E as <-.
    eexists. split; [left|reflexivity].
Defined.

Lemma imap_shape (g : Grid) :
  forall f : nat -> list Q -> list Q,
    (forall i row, length (f i row) = length row) ->
    shape (imap f g) = shape g.
Proof.
  unfold shape. induction g as [|row g IH]; intros f Hf; [reflexivity|].
  simpl. rewrite Hf. f_equal. apply IH. intros i r. apply Hf.
Qed.

Lemma mul_slice_shape (g : Grid) (y0 y1 x0 x1 : Z) :
  shape (mul_slice g y0 y1 x0 x1) = shape g.
Proof.
  unfold mul_slice. apply imap_shape. intros i row.
  destruct (in_slice _ _ _ _); [apply length_imap | reflexivity].
Qed.

(** [boost_heatmap] never changes the shape of the array, whatever the
    corners of the boxes are: the slice is clipped to the array. *)
Theorem boost_heatmap_shape (vs : list Vehicle.t) (heatmap out : Grid) :
  Tracker.boost_heatmap heatmap vs = Some out -> shape out = shape heatmap.
Proof.
  revert heatmap. induction vs as [|v vs IH]; intros heatmap E.
  - injection E as <-. reflexivity.
  - simpl in E. destruct (24 <? Vehicle.frames_detected v); [|apply IH, E].
    destruct (Vehicle.box v) as [b|]; [|discriminate]. simpl in E.
    rewrite (IH _ E). apply mul_slice_shape.
Qed.

Lemma boost_heatmap_shape_witness :
  exists out,
    Tracker.boost_heatmap ones_3x4
      [Vehicle.mk (Some (Box.init ((-2, 1), (50, 9)))) 7 [] 0 25] = Some out /\
    shape out = [4; 4; 4]%nat.
Proof.
  destruct (Tracker.boost_heatmap ones_3x4
              [Vehicle.mk (Some (Box.init ((-2, 1), (50, 9)))) 7 [] 0 25])
    as [out|] eqn:E; [|vm_compute in E; discriminate E].
  exists out. split; [reflexivity|].
  exact (boost_heatmap_shape _ ones_3x4 out E).
Defined.

Lemma filter_Forall_id (P : Vehicle.t -> Prop) `{forall v, Decision (P v)}
    (l : list Vehicle.t) :
  Forall P l -> filter P l = l.
Proof.
  induction 1 as [|v l Hv _ IH]; [reflexivity|].
  rewrite filter_cons_True by exact Hv. rewrite IH. reflexivity.
Qed.

Lemma remove_vehicles_eq (self : Tracker.t) :
  Tracker.remove_vehicles self =
  Tracker.set_vehicles self
    (filter (fun v => Vehicle.box v <> None) (Tracker.vehicles self)).
Proof.
  pose proof (remove_vehicles_filter self) as H.
  unfold Tracker.remove_vehicles in *. simpl in H. rewrite H. reflexivity.
Qed.

(** [remove_vehicles], with its two loops and [list.remove], keeps exactly
    the vehicles that have a box, in their order, touches nothing else in
    the tracker, and changes nothing when run a second time. *)
Theorem remove_vehicles_keeps_order (self : Tracker.t) :
  Tracker.remove_vehicles self =
    Tracker.set_vehicles self
      (filter (fun v => Vehicle.box v <> None) (Tracker.vehicles self)) /\
  Tracker.remove_vehicles (Tracker.remove_vehicles self) =
    Tracker.remove_vehicles self.
Proof.
  split; [apply remove_vehicles_eq|].
  rewrite (remove_vehicles_eq (Tracker.remove_vehicles self)),
          (remove_vehicles_eq self).
  simpl. unfold Tracker.set_vehicles. simpl. f_equal.
  apply filter_Forall_id. apply Forall_forall. intros v Hin.
  apply list_elem_of_filter in Hin. apply Hin.
Qed.

(** ** Tracker: the histories over a video *)

Lemma push_bounded_take (f : Frame.t) (h : list Frame.t) (size : Z) :
  0 <= size -> Z.of_nat (length h) <= size ->
  Tracker.push_bounded f h size = take (Z.to_nat size) (f :: h).
Proof.
  intros Hs Hh. unfold Tracker.push_bounded.
  destruct (Z.ltb_spec size (Z.of_nat (length (f :: h)))) as [Hlt|Hge].
  - rewrite removelast_firstn_len. f_equal. simpl length in *. lia.
  - rewrite take_ge; [reflexivity|]. simpl length in *. lia.
Qed.

Lemma push_bounded_length_eq (f g : Frame.t) (h k : list Frame.t) (size : Z) :
  length h = length k ->
  length (Tracker.push_bounded f h size)
  = length (Tracker.push_bounded g k size).
Proof.
  intros E. unfold Tracker.push_bounded.
  assert (El : length (f :: h) = length (g :: k)) by (simpl; congruence).
  rewrite El. destruct (_ <? _); [|exact El].
  rewrite !removelast_length, El. reflexivity.
Qed.

Lemma update_vehicles_fields (box_tuples : list BoxTuple)
    (self self' : Tracker.t) :
  Tracker.update_vehicles box_tuples self = Some self' ->
  self' = Tracker.set_vehicles self (Tracker.vehicles self').
Proof.
  unfold Tracker.update_vehicles.
  destruct (Tracker.claim_pass _ _ _) as [r|]; [|discriminate].
  intros E. injection E as <-. reflexivity.
Qed.

Lemma check_box_change_fields (boxes : list BoxTuple) (self : Tracker.t) :
  Tracker.heatmap_window_size (Tracker.check_box_change boxes self)
    = Tracker.heatmap_window_size self /\
  Tracker.heatmap_threshold_per_frame (Tracker.check_box_change boxes self)
    = Tracker.heatmap_threshold_per_frame self /\
  Tracker.vehicle_window_size (Tracker.check_box_change boxes self)
    = Tracker.vehicle_window_size self /\
  Tracker.frames (Tracker.check_box_change boxes self) = Tracker.frames self /\
  Tracker.smoothed_frames (Tracker.check_box_change boxes self)
    = Tracker.smoothed_frames self.
Proof.
  destruct (check_box_change_cases boxes self) as [-> | ->];
    repeat split; reflexivity.
Qed.

(** What a [track] call does to the configuration and the histories. *)
Lemma track_fields (label_bboxes : Grid -> list BoxTuple)
    (search_result : Grid * list BoxTuple) (self self' : Tracker.t)
    (drawn : list BoxTuple) :
  Tracker.track label_bboxes search_result self = Some (self', drawn) ->
  Tracker.heatmap_window_size self' = Tracker.heatmap_window_size self /\
  Tracker.heatmap_threshold_per_frame self'
    = Tracker.heatmap_threshold_per_frame self /\
  Tracker.vehicle_window_size self' = Tracker.vehicle_window_size self /\
  Tracker.frames self' =
    Tracker.push_bounded (Frame.mk search_result.1 search_result.2)
      (Tracker.frames self) (Tracker.heatmap_window_size self) /\
  (exists heatmap boxes,
     Tracker.smooth_heatmaps label_bboxes
       (Tracker.add_frame search_result self) = Some (heatmap, boxes) /\
     Tracker.smoothed_frames self' =
       Tracker.push_bounded (Frame.mk heatmap boxes)
         (Tracker.smoothed_frames self) (Tracker.heatmap_window_size self)) /\
  drawn = Tracker.draw_vehicle_boxes self'.
Proof.
  unfold Tracker.track.
  destruct (Tracker.smooth_heatmaps _ _) as [[heatmap boxes]|]; [|discriminate].
  cbn [mbind option_bind fst snd].
  destruct (Tracker.update_vehicles _ _) as [s3|] eqn:E3; [|discriminate].
  cbn [mbind option_bind]. intros E. injection E as <- <-.
  apply update_vehicles_fields in E3.
  destruct (check_box_change_fields boxes
              (Tracker.add_smoothed_frame heatmap boxes
                 (Tracker.add_frame search_result self)))
    as (H1 & H2 & H3 & H4 & H5).
  rewrite E3. simpl. rewrite H1, H2, H3, H4, H5. simpl.
  repeat split; try reflexivity.
  exists heatmap, boxes. split; reflexivity.
Qed.

Lemma take_app_take {A} (n : nat) (l : list A) :
  forall (m : nat) (k : list A),
    (n <= m)%nat -> take n (l ++ take m k) = take n (l ++ k).
Proof.
  revert n. induction l as [|a l IH]; intros n m k Hnm.
  - simpl. rewrite take_take. f_equal. lia.
  - destruct n as [|n]; [reflexivity|]. simpl. f_equal. apply IH. lia.
Qed.

Lemma track_all_histories (label_bboxes : Grid -> list BoxTuple)
    (search_results : list (Grid * list BoxTuple)) :
  forall self final : Tracker.t,
    0 <= Tracker.heatmap_window_size self ->
    Z.of_nat (length (Tracker.frames self))
      <= Tracker.heatmap_window_size self ->
    length (Tracker.smoothed_frames self) = length (Tracker.frames self) ->
    track_all label_bboxes search_results self = Some final ->
    Tracker.frames final =
      take (Z.to_nat (Tracker.heatmap_window_size self))
           (rev (map (fun r : Grid * list BoxTuple => Frame.mk r.1 r.2)
                     search_results)
            ++ Tracker.frames self) /\
    length (Tracker.smoothed_frames final) = length (Tracker.frames final).
Proof.
  induction search_results as [|sr rest IH]; intros self final Hs Hlen Heq E.
  - injection E as <-. simpl. split; [|exact Heq].
    rewrite take_ge; [reflexivity | lia].
  - cbn [track_all] in E.
    destruct (Tracker.track label_bboxes sr self) as [[s1 d]|] eqn:E1;
      [|discriminate].
    cbn [mbind option_bind fst] in E.
    destruct (track_fields _ _ _ _ _ E1)
      as (Hh & _ & _ & Hf & (hm & bs & _ & Hsm) & _).
    assert (Hf' : Tracker.frames s1 =
                  take (Z.to_nat (Tracker.heatmap_window_size self))
                       (Frame.mk sr.1 sr.2 :: Tracker.frames self))
      by (rewrite Hf; apply push_bounded_take; assumption).
    destruct (IH s1 final) as [Hfin Hsfin].
    + rewrite Hh. exact Hs.
    + rewrite Hh, Hf'. rewrite length_take. lia.
    + rewrite Hf, Hsm. apply push_bounded_length_eq. exact Heq.
    + exact E.
    + split; [|exact Hsfin].
      rewrite Hfin, Hh, Hf'. rewrite take_app_take by lia.
      cbn [map rev]. rewrite <- app_assoc. reflexivity.
Qed.

(** After any number of [track] calls on a tracker built with a positive
    heat-map window, the raw history holds exactly the most recent
    [heatmap_window_size] search results, the newest first, and the
    smoothed history has as many entries. *)
Theorem raw_history_is_most_recent (label_bboxes : Grid -> list BoxTuple)
    (hws : Z) (tpf : Q) (vws : Z)
    (search_results : list (Grid * list BoxTuple))
    (start final : Tracker.t) :
  0 < hws ->
  Tracker.init hws tpf vws = Some start ->
  track_all label_bboxes search_results start = Some final ->
  Tracker.frames final =
    take (Z.to_nat hws)
         (rev (map (fun r : Grid * list BoxTuple => Frame.mk r.1 r.2)
                   search_results)) /\
  length (Tracker.frames final)
    = Nat.min (length search_results) (Z.to_nat hws) /\
  length (Tracker.smoothed_frames final) = length (Tracker.frames final).
Proof.
  intros Hh Einit E. injection Einit as <-.
  destruct (track_all_histories label_bboxes search_results
              (Tracker.mk hws tpf vws [] [] [] 0) final) as [Hf Hs];
    [simpl; lia | simpl; lia | reflexivity | exact E |].
  simpl in Hf. rewrite app_nil_r in Hf.
  split; [exact Hf|]. split; [|exact Hs].
  rewrite Hf, length_take, length_rev, length_map. lia.
Qed.

Lemma raw_history_is_most_recent_witness :
  exists final,
    track_all label_one_box
      [search_result_5; ([[7%Q]], []); ([[9%Q]], [])]
      (Tracker.mk 2 (17 # 10)%Q 7 [] [] [] 0) = Some final /\
    Tracker.frames final = [Frame.mk [[9%Q]] []; Frame.mk [[7%Q]] []] /\
    length (Tracker.smoothed_frames final) = 2%nat.
Proof.
  destruct (track_all label_one_box
              [search_result_5; ([[7%Q]], []); ([[9%Q]], [])]
              (Tracker.mk 2 (17 # 10)%Q 7 [] [] [] 0)) as [final|] eqn:E;
    [|vm_compute in E; discriminate E].
  exists final. split; [reflexivity|].
  destruct (raw_history_is_most_recent label_one_box 2 (17 # 10)%Q 7
              [search_result_5; ([[7%Q]], []); ([[9%Q]], [])] _ final
              ltac:(reflexivity) eq_refl E) as (Hf & _ & Hs).
  split; [exact Hf | rewrite Hs, Hf; reflexivity].
Defined.

(** ** Tracker: first frame and accepted count changes *)

Lemma draw_fresh_vehicles (hws : Z) (tpf : Q) (vws : Z)
    (fs sfs : list Frame.t) (boxes : list BoxTuple) (n : Z) :
  Tracker.draw_vehicle_boxes
    (Tracker.mk hws tpf vws fs sfs
       (map (fun b => Vehicle.init b vws) (map Box.init boxes)) n) = boxes.
Proof.
  unfold Tracker.draw_vehicle_boxes. simpl.
  induction boxes as [|[[x0 y0] [x1 y1]] boxes IH]; [reflexivity|].
  simpl. f_equal. exact IH.
Qed.

Lemma filter_fresh_vehicles (vws : Z) (boxes : list Box.t) :
  filter (fun v => Vehicle.box v <> None)
         (map (fun b => Vehicle.init b vws) boxes)
  = map (fun b => Vehicle.init b vws) boxes.
Proof.
  apply filter_Forall_id. apply Forall_forall. intros v Hin.
  apply list_elem_of_In, in_map_iff in Hin as (b & <- & _). discriminate.
Qed.

Lemma update_vehicles_empty (box_tuples : list BoxTuple) (self : Tracker.t) :
  Tracker.vehicles self = [] ->
  Tracker.update_vehicles box_tuples self =
  Some (Tracker.set_vehicles self
          (map (fun b => Vehicle.init b (Tracker.vehicle_window_size self))
               (map Box.init box_tuples))).
Proof.
  intros Hnil.
  destruct (update_vehicles_spec box_tuples self) as (vs' & flags & E & H3).
  { rewrite Hnil. constructor. }
  rewrite Hnil in H3. inversion H3; subst.
  rewrite unclaimed_boxes_nil in E. exact E.
Qed.

(** The first frame of a tracker built with a positive heat-map window:
    the heat map is thresholded at [int(heatmap_threshold_per_frame * 1)],
    every box the labeller finds becomes a new vehicle and is drawn as it
    is, and the number of boxes is accepted as the stable count at once. *)
Theorem track_first_frame (label_bboxes : Grid -> list BoxTuple)
    (hws : Z) (tpf : Q) (vws : Z) (heatmap : Grid) (raw : list BoxTuple) :
  0 < hws ->
  let out := apply_threshold heatmap (threshold_of tpf 1) in
  let boxes := label_bboxes out in
  Tracker.track label_bboxes (heatmap, raw) (Tracker.mk hws tpf vws [] [] [] 0)
  = Some (Tracker.mk hws tpf vws
            [Frame.mk heatmap raw] [Frame.mk out boxes]
            (map (fun b => Vehicle.init b vws) (map Box.init boxes))
            (Z.of_nat (length boxes)),
          boxes).
Proof.
  intros Hh out boxes. unfold Tracker.track, Tracker.add_frame.
  cbn [fst snd Tracker.frames Tracker.heatmap_window_size
       Tracker.heatmap_threshold_per_frame Tracker.vehicle_window_size
       Tracker.smoothed_frames Tracker.vehicles Tracker.heatmap_boxes_count].
  assert (Epush : forall f, Tracker.push_bounded f [] hws = [f]).
  { intros f. unfold Tracker.push_bounded. simpl length.
    destruct (Z.ltb_spec hws (Z.of_nat 1)); [lia | reflexivity]. }
  rewrite Epush. unfold Tracker.smooth_heatmaps, Tracker.threshold.
  cbn [Tracker.frames Tracker.vehicles Tracker.heatmap_threshold_per_frame
       map np_sum_axis0 grid_add_all Frame.heatmap Tracker.boost_heatmap
       mbind option_bind length fst snd].
  fold out. fold boxes.
  unfold Tracker.add_smoothed_frame.
  cbn [Tracker.frames Tracker.heatmap_window_size
       Tracker.heatmap_threshold_per_frame Tracker.vehicle_window_size
       Tracker.smoothed_frames Tracker.vehicles Tracker.heatmap_boxes_count].
  rewrite Epush.
  set (s2 := Tracker.check_box_change boxes _).
  assert (E2 : s2 = Tracker.mk hws tpf vws [Frame.mk heatmap raw]
                      [Frame.mk out boxes] [] (Z.of_nat (length boxes))).
  { subst s2. unfold Tracker.check_box_change.
    cbn [Tracker.heatmap_boxes_count Tracker.smoothed_frames].
    destruct (Z.eqb_spec (Z.of_nat (length boxes)) 0) as [E0|N0].
    - simpl. rewrite E0. reflexivity.
    - simpl. rewrite Z.eqb_refl. reflexivity. }
  rewrite E2, update_vehicles_empty by reflexivity.
  cbn [mbind option_bind]. rewrite remove_vehicles_eq.
  unfold Tracker.set_vehicles.
  cbn [Tracker.frames Tracker.heatmap_window_size
       Tracker.heatmap_threshold_per_frame Tracker.vehicle_window_size
       Tracker.smoothed_frames Tracker.vehicles Tracker.heatmap_boxes_count].
  rewrite filter_fresh_vehicles, draw_fresh_vehicles. reflexivity.
Qed.

Lemma track_first_frame_witness :
  Tracker.track label_one_box search_result_5
    (Tracker.mk 10 (17 # 10)%Q 7 [] [] [] 0)
  = Some (tracker_after_one_frame, [((0, 0), (10, 10))]).
Proof.
  exact (track_first_frame label_one_box 10 (17 # 10)%Q 7 [[5%Q]]
           [((0, 0), (10, 10))] ltac:(reflexivity)).
Defined.

(** When [check_box_change] accepts a new count, the tracking state is
    rebuilt from the frame alone: after [update_vehicles] the list holds
    one new vehicle per box of the frame, in order, and nothing of the
    vehicles tracked before, whatever their detection counts were. *)
Theorem accepted_count_change_recreates (boxes : list BoxTuple)
    (self : Tracker.t) :
  Z.of_nat (length boxes) <> Tracker.heatmap_boxes_count self ->
  Forall (fun f => box_count f = Z.of_nat (length boxes)) (inspected self) ->
  Tracker.update_vehicles boxes (Tracker.check_box_change boxes self) =
  Some (Tracker.mk (Tracker.heatmap_window_size self)
          (Tracker.heatmap_threshold_per_frame self)
          (Tracker.vehicle_window_size self)
          (Tracker.frames self) (Tracker.smoothed_frames self)
          (map (fun b => Vehicle.init b (Tracker.vehicle_window_size self))
               (map Box.init boxes))
          (Z.of_nat (length boxes))).
Proof.
  intros Hne Hall. rewrite check_box_change_reset by assumption.
  rewrite update_vehicles_empty by reflexivity. reflexivity.
Qed.

Lemma accepted_count_change_recreates_witness :
  exists self',
    Tracker.update_vehicles three_boxes
      (Tracker.check_box_change three_boxes tracker_third_3) = Some self' /\
    Tracker.vehicles self'
      = replicate 3 (Vehicle.init (Box.init ((0, 0), (1, 1))) 7).
Proof.
  eexists. split.
  - apply (accepted_count_change_recreates three_boxes tracker_third_3).
    + discriminate.
    + repeat constructor.
  - reflexivity.
Defined.

(** ** Tracker: what holds of the vehicles in every reachable state *)

Lemma corner_mean_singleton (tuple : BoxTuple) :
  corner_mean [Box.init tuple] = tuple.
Proof.
  destruct tuple as [[x0 y0] [x1 y1]]. unfold corner_mean. simpl.
  rewrite !Z.add_0_r, !Z.div_1_r. reflexivity.
Qed.

Lemma vehicle_init_sound (tuple : BoxTuple) (ws : Z) :
  vehicle_sound (Vehicle.init (Box.init tuple) ws).
Proof.
  unfold vehicle_sound. simpl. rewrite corner_mean_singleton.
  split; [reflexivity|]. split; [lia|]. split; [left; reflexivity | lia].
Qed.

Lemma check_ownership_single_mean (self : Vehicle.t) (other : Box.t)
    (r : Vehicle.t * bool) :
  live self ->
  Vehicle.box self = Some (Box.init (corner_mean (Vehicle.boxes self))) ->
  Vehicle.check_ownership_single self other = Some r ->
  live r.1 /\
  Vehicle.box r.1 = Some (Box.init (corner_mean (Vehicle.boxes r.1))).
Proof.
  intros [Hb Hne] Hmean E.
  rewrite (check_ownership_single_eq self _ other Hmean Hne) in E.
  destruct (Vehicle.owns _ other); injection E as <-; simpl.
  - split; [|reflexivity].
    split; [discriminate | apply pushed_window_nonempty, Hne].
  - split; [split; assumption | exact Hmean].
Qed.

Lemma claim_each_mean (bxs : list Box.t) :
  forall (self : Vehicle.t) (r : Vehicle.t * list bool),
    live self ->
    Vehicle.box self = Some (Box.init (corner_mean (Vehicle.boxes self))) ->
    Vehicle.claim_each self bxs = Some r ->
    Vehicle.box r.1 = Some (Box.init (corner_mean (Vehicle.boxes r.1))).
Proof.
  induction bxs as [|b bxs IH]; intros self r Hlive Hmean E.
  - injection E as <-. exact Hmean.
  - simpl in E.
    destruct (Vehicle.check_ownership_single self b) as [r1|] eqn:E1;
      [|discriminate]. simpl in E.
    destruct (Vehicle.claim_each r1.1 bxs) as [rs|] eqn:E2; [|discriminate].
    injection E as <-. simpl.
    destruct (check_ownership_single_mean _ _ _ Hlive Hmean E1) as [Hl1 Hm1].
    exact (IH _ _ Hl1 Hm1 E2).
Qed.

Lemma check_ownership_sound (self self' : Vehicle.t) (bxs : list Box.t)
    (claimed : list bool) :
  live self -> vehicle_sound self ->
  Vehicle.check_ownership self bxs = Some (self', claimed) ->
  Vehicle.box self' <> None ->
  vehicle_sound self'.
Proof.
  intros Hlive (Hmean & Hs0 & Hsw & Hd) E Hbox.
  unfold Vehicle.check_ownership in E.
  destruct (Vehicle.claim_each self bxs) as [r|] eqn:E1; [|discriminate].
  pose proof (claim_each_mean _ _ _ Hlive Hmean E1) as Hm.
  destruct (claim_each_fields _ _ _ E1) as (Hw & Hs & Hfd & _).
  cbn [mbind option_bind] in E. cbv zeta in E.
  destruct (existsb _ _).
  - injection E as <- _. unfold vehicle_sound. simpl.
    split; [exact Hm|]. split; [lia|]. split; [left; reflexivity | lia].
  - destruct (Z.ltb_spec (Vehicle.window_size r.1)
                (Vehicle.frames_since_detected r.1 + 1)) as [Hlt|Hge];
      injection E as <- _.
    + exfalso. apply Hbox. reflexivity.
    + unfold vehicle_sound. simpl.
      split; [exact Hm|]. split; [lia|]. split; [right; lia | lia].
Qed.

Lemma unclaimed_boxes_elem (flags : list (list bool)) (boxes : list Box.t)
    (b : Box.t) :
  b ∈ unclaimed_boxes flags boxes -> b ∈ boxes.
Proof.
  unfold unclaimed_boxes.
  change (imap pair boxes) with (imap (fun i b => ((fun i => i) i, b)) boxes).
  generalize (fun i : nat => i) as g. induction boxes as [|b0 boxes IH];
    intros g Hin; [inversion Hin|].
  simpl in Hin. destruct (claimed_by_some flags (g 0%nat)).
  - right. apply (IH (fun i => g (S i))). exact Hin.
  - apply elem_of_cons in Hin as [->|Hin]; [left|right].
    apply (IH (fun i => g (S i))). exact Hin.
Qed.

(** The vehicles after a [track] call, from the vehicles before it. *)
Lemma track_vehicles (label_bboxes : Grid -> list BoxTuple)
    (hws : Z) (tpf : Q) (vws : Z) (self self' : Tracker.t)
    (search_result : Grid * list BoxTuple) (drawn : list BoxTuple) :
  tracker_inv hws tpf vws self ->
  Tracker.track label_bboxes search_result self = Some (self', drawn) ->
  exists vs0 vs' flags box_tuples,
    (vs0 = Tracker.vehicles self \/ vs0 = []) /\
    Forall3 (fun v v' fl =>
               Vehicle.check_ownership v (map Box.init box_tuples)
               = Some (v', fl)) vs0 vs' flags /\
    Tracker.vehicles self' =
      filter (fun v => Vehicle.box v <> None)
        (vs' ++ map (fun b => Vehicle.init b vws)
                    (unclaimed_boxes flags (map Box.init box_tuples))).
Proof.
  intros (Hh & Ht & Hv & Hvs & _) E. unfold Tracker.track in E.
  destruct (Tracker.smooth_heatmaps _ _) as [[heatmap boxes]|]; [|discriminate].
  cbn [mbind option_bind fst snd] in E.
  set (s1 := Tracker.add_smoothed_frame heatmap boxes
               (Tracker.add_frame search_result self)) in *.
  assert (Hcases : (Tracker.vehicles (Tracker.check_box_change boxes s1)
                    = Tracker.vehicles self \/
                    Tracker.vehicles (Tracker.check_box_change boxes s1) = [])
                   /\ Tracker.vehicle_window_size
                        (Tracker.check_box_change boxes s1) = vws).
  { destruct (check_box_change_cases boxes s1) as [-> | ->]; simpl;
      (split; [|exact Hv]); [left | right]; reflexivity. }
  destruct Hcases as [Hcases Hvws].
  destruct (update_vehicles_spec boxes (Tracker.check_box_change boxes s1))
    as (vs' & flags & E2 & H3).
  { destruct Hcases as [-> | ->]; [|constructor].
    eapply Forall_impl; [exact Hvs | apply vehicle_ok_live]. }
  rewrite E2 in E. cbn [mbind option_bind] in E. injection E as <- _.
  exists (Tracker.vehicles (Tracker.check_box_change boxes s1)),
         vs', flags, boxes.
  split; [exact Hcases|]. split; [exact H3|].
  rewrite remove_vehicles_filter. simpl. rewrite Hvws. reflexivity.
Qed.

Lemma track_sound (label_bboxes : Grid -> list BoxTuple)
    (hws : Z) (tpf : Q) (vws : Z) (self self' : Tracker.t)
    (search_result : Grid * list BoxTuple) (drawn : list BoxTuple) :
  tracker_inv hws tpf vws self ->
  Forall vehicle_sound (Tracker.vehicles self) ->
  Tracker.track label_bboxes search_result self = Some (self', drawn) ->
  Forall vehicle_sound (Tracker.vehicles self').
Proof.
  intros Hinv Hsound E. pose proof Hinv as (_ & _ & _ & Hvs & _).
  destruct (track_vehicles _ _ _ _ _ _ _ _ Hinv E)
    as (vs0 & vs' & flags & bts & Hcases & H3 & ->).
  assert (Hok0 : Forall (fun v => live v /\ vehicle_sound v) vs0).
  { destruct Hcases as [-> | ->]; [|constructor].
    apply Forall_forall. intros v Hin. rewrite Forall_forall in Hvs, Hsound.
    split; [eapply vehicle_ok_live, Hvs, Hin | apply Hsound, Hin]. }
  apply Forall_forall. intros v Hin.
  apply list_elem_of_filter in Hin as [Hbox Hin].
  apply elem_of_app in Hin as [Hin|Hin].
  - clear Hcases. induction H3 as [|v0 v0' fl0 l k k' E0 _ IH];
      [inversion Hin|].
    apply Forall_cons in Hok0 as [[Hl0 Hs0] Hok0].
    apply elem_of_cons in Hin as [->|Hin]; [|apply IH; assumption].
    eapply check_ownership_sound; eassumption.
  - apply list_elem_of_In, in_map_iff in Hin as (b & <- & Hb).
    apply list_elem_of_In, unclaimed_boxes_elem, list_elem_of_In, in_map_iff
      in Hb as (bt & <- & _).
    apply vehicle_init_sound.
Qed.

Lemma reachable_sound (label_bboxes : Grid -> list BoxTuple)
    (hws : Z) (tpf : Q) (vws : Z) (self : Tracker.t) :
  Tracker.reachable label_bboxes hws tpf vws self ->
  Forall vehicle_sound (Tracker.vehicles self).
Proof.
  induction 1 as [self E | self sr self' drawn Hreach IH E].
  - injection E as <-. constructor.
  - apply (track_sound label_bboxes hws tpf vws self self' sr drawn);
      [apply (reachable_inv label_bboxes); exact Hreach | exact IH | exact E].
Qed.

(** In every reachable state the representative box of every vehicle is
    the corner-wise integer mean of the boxes in its window. *)
Theorem representative_is_window_mean (label_bboxes : Grid -> list BoxTuple)
    (hws : Z) (tpf : Q) (vws : Z) (self : Tracker.t) :
  Tracker.reachable label_bboxes hws tpf vws self ->
  forall v, v ∈ Tracker.vehicles self ->
    Vehicle.box v = Some (Box.init (corner_mean (Vehicle.boxes v))).
Proof.
  intros Hreach v Hin. pose proof (reachable_sound _ _ _ _ _ Hreach) as H.
  rewrite Forall_forall in H. apply (H v Hin).
Qed.

Lemma representative_is_window_mean_witness :
  Forall (fun v => Vehicle.box v
                   = Some (Box.init (corner_mean (Vehicle.boxes v))))
         (Tracker.vehicles tracker_after_one_frame).
Proof.
  apply Forall_forall.
  exact (representative_is_window_mean label_one_box 10 (17 # 10)%Q 7
           tracker_after_one_frame reachable_after_one_frame).
Defined.

(** In every reachable state every vehicle has the window size of the
    tracker, has been detected at least once, and has missed at most
    [vehicle_window_size] frames in a row (none at all when that size is
    negative). *)
Theorem reachable_counters (label_bboxes : Grid -> list BoxTuple)
    (hws : Z) (tpf : Q) (vws : Z) (self : Tracker.t) :
  Tracker.reachable label_bboxes hws tpf vws self ->
  forall v, v ∈ Tracker.vehicles self ->
    Vehicle.window_size v = vws /\
    0 <= Vehicle.frames_since_detected v /\
    (Vehicle.frames_since_detected v = 0 \/
     Vehicle.frames_since_detected v <= vws) /\
    1 <= Vehicle.frames_detected v.
Proof.
  intros Hreach v Hin. pose proof (reachable_sound _ _ _ _ _ Hreach) as H.
  destruct (reachable_inv _ _ _ _ _ Hreach) as (_ & _ & _ & Hok & _).
  rewrite Forall_forall in H, Hok.
  destruct (H v Hin) as (_ & H0 & Hw & Hd).
  destruct (Hok v Hin) as (_ & _ & Ews & _).
  rewrite <- Ews. repeat split; assumption.
Qed.

Lemma reachable_counters_witness :
  Forall (fun v => Vehicle.window_size v = 7 /\
                   0 <= Vehicle.frames_since_detected v /\
                   (Vehicle.frames_since_detected v = 0 \/
                    Vehicle.frames_since_detected v <= 7) /\
                   1 <= Vehicle.frames_detected v)
         (Tracker.vehicles tracker_after_one_frame).
Proof.
  apply Forall_forall.
  exact (reachable_counters label_one_box 10 (17 # 10)%Q 7
           tracker_after_one_frame reachable_after_one_frame).
Defined.

Lemma draw_sound (self : Tracker.t) :
  Forall vehicle_sound (Tracker.vehicles self) ->
  Tracker.draw_vehicle_boxes self
  = map (fun v => corner_mean (Vehicle.boxes v)) (Tracker.vehicles self).
Proof.
  unfold Tracker.draw_vehicle_boxes.
  induction 1 as [|v vs (Hmean & _) _ IH]; [reflexivity|].
  simpl. rewrite Hmean. simpl.
  rewrite as_tuple_init. f_equal. exact IH.
Qed.

(** The boxes a [track] call hands to the renderer: one per vehicle of the
    object list it leaves, in the order of the list, each the corner-wise
    mean of that vehicle's window.  The test for a missing box in
    [draw_vehicle_boxes] never skips a vehicle. *)
Theorem drawn_boxes_are_window_means (label_bboxes : Grid -> list BoxTuple)
    (hws : Z) (tpf : Q) (vws : Z) (self self' : Tracker.t)
    (search_result : Grid * list BoxTuple) (drawn : list BoxTuple) :
  Tracker.reachable label_bboxes hws tpf vws self ->
  Tracker.track label_bboxes search_result self = Some (self', drawn) ->
  drawn = map (fun v => corner_mean (Vehicle.boxes v)) (Tracker.vehicles self').
Proof.
  intros Hreach E.
  destruct (track_fields _ _ _ _ _ E) as (_ & _ & _ & _ & _ & ->).
  apply draw_sound. apply (reachable_sound label_bboxes hws tpf vws).
  eapply Tracker.reachable_track; eassumption.
Qed.

Lemma drawn_boxes_are_window_means_witness :
  exists self' drawn,
    Tracker.track label_one_box search_result_5 tracker_after_one_frame
    = Some (self', drawn) /\
    drawn = map (fun v => corner_mean (Vehicle.boxes v))
                (Tracker.vehicles self').
Proof.
  destruct (Tracker.track label_one_box search_result_5
              tracker_after_one_frame) as [[self' drawn]|] eqn:E;
    [|vm_compute in E; discriminate E].
  exists self', drawn. split; [reflexivity|].
  exact (drawn_boxes_are_window_means label_one_box 10 (17 # 10)%Q 7
           tracker_after_one_frame self' search_result_5 drawn
           reachable_after_one_frame E).
Defined.

(** ** Tracker: the raw boxes of the detector *)

Lemma map_removelast {A B} (f : A -> B) (l : list A) :
  map f (removelast l) = removelast (map f l).
Proof.
  induction l as [|a l IH]; [reflexivity|].
  destruct l as [|b l]; [reflexivity|].
  cbn [removelast map] in *. f_equal. exact IH.
Qed.

Lemma map_heatmap_push_bounded (heatmap : Grid) (raw raw' : list BoxTuple)
    (fs fs' : list Frame.t) (size : Z) :
  map Frame.heatmap fs = map Frame.heatmap fs' ->
  map Frame.heatmap (Tracker.push_bounded (Frame.mk heatmap raw) fs size)
  = map Frame.heatmap (Tracker.push_bounded (Frame.mk heatmap raw') fs' size).
Proof.
  intros E. unfold Tracker.push_bounded.
  assert (El : length fs = length fs')
    by (rewrite <- (length_map Frame.heatmap fs), E; apply length_map).
  simpl length. rewrite El. destruct (_ <? _).
  - rewrite !map_removelast. simpl. rewrite E. reflexivity.
  - simpl. rewrite E. reflexivity.
Qed.

Lemma smooth_heatmaps_with_frames (label_bboxes : Grid -> list BoxTuple)
    (fs : list Frame.t) (self : Tracker.t) :
  map Frame.heatmap fs = map Frame.heatmap (Tracker.frames self) ->
  Tracker.smooth_heatmaps label_bboxes (with_frames fs self)
  = Tracker.smooth_heatmaps label_bboxes self.
Proof.
  intros E. unfold Tracker.smooth_heatmaps, Tracker.threshold. simpl.
  assert (El : length fs = length (Tracker.frames self))
    by (rewrite <- (length_map Frame.heatmap fs), E; apply length_map).
  rewrite E, El. reflexivity.
Qed.

Lemma update_vehicles_with_frames (boxes : list BoxTuple) (fs : list Frame.t)
    (self : Tracker.t) :
  Tracker.update_vehicles boxes (with_frames fs self)
  = with_frames fs <$> Tracker.update_vehicles boxes self.
Proof.
  unfold Tracker.update_vehicles. simpl.
  destruct (Tracker.claim_pass _ _ _); reflexivity.
Qed.

Lemma check_box_change_with_frames (boxes : list BoxTuple)
    (fs : list Frame.t) (self : Tracker.t) :
  Tracker.check_box_change boxes (with_frames fs self)
  = with_frames fs (Tracker.check_box_change boxes self).
Proof.
  unfold Tracker.check_box_change. simpl.
  destruct (negb _); [|reflexivity].
  destruct (Tracker.count_settled _ _ _); reflexivity.
Qed.

(** The boxes that come with a search result are stored in the raw
    history and never read: two runs that receive the same heat maps but
    different raw boxes draw the same boxes and agree on everything but
    those stored boxes, frame after frame. *)
Theorem raw_boxes_never_read (label_bboxes : Grid -> list BoxTuple)
    (heatmap : Grid) (raw1 raw2 : list BoxTuple)
    (s1 s2 s1' : Tracker.t) (drawn : list BoxTuple) :
  same_but_raw_boxes s1 s2 ->
  Tracker.track label_bboxes (heatmap, raw1) s1 = Some (s1', drawn) ->
  exists s2',
    Tracker.track label_bboxes (heatmap, raw2) s2 = Some (s2', drawn) /\
    same_but_raw_boxes s1' s2'.
Proof.
  intros [E2 Emap] E.
  set (fs2 := Tracker.push_bounded (Frame.mk heatmap raw2) (Tracker.frames s2)
                (Tracker.heatmap_window_size s1)).
  assert (Emap' : map Frame.heatmap fs2 =
                  map Frame.heatmap
                    (Tracker.frames (Tracker.add_frame (heatmap, raw1) s1))).
  { subst fs2. simpl. apply map_heatmap_push_bounded. symmetry. exact Emap. }
  assert (Eadd : Tracker.add_frame (heatmap, raw2) s2
                 = with_frames fs2 (Tracker.add_frame (heatmap, raw1) s1)).
  { rewrite E2. reflexivity. }
  destruct (track_fields _ _ _ _ _ E) as (Hh & Ht & Hv & Hf & _ & _).
  exists (with_frames fs2 s1'). split.
  - unfold Tracker.track in *. rewrite Eadd.
    rewrite smooth_heatmaps_with_frames by exact Emap'.
    destruct (Tracker.smooth_heatmaps label_bboxes
                (Tracker.add_frame (heatmap, raw1) s1)) as [[hm bs]|];
      [|discriminate].
    cbn [mbind option_bind fst snd] in *.
    change (Tracker.add_smoothed_frame hm bs
              (with_frames fs2 (Tracker.add_frame (heatmap, raw1) s1)))
      with (with_frames fs2
              (Tracker.add_smoothed_frame hm bs
                 (Tracker.add_frame (heatmap, raw1) s1))).
    rewrite check_box_change_with_frames, update_vehicles_with_frames.
    destruct (Tracker.update_vehicles bs _) as [s3|]; [|discriminate].
    cbn [mbind option_bind fmap option_fmap option_map] in *.
    injection E as <- <-. reflexivity.
  - split; [reflexivity|]. simpl. rewrite Hf. simpl in Emap'.
    symmetry. exact Emap'.
Qed.

Lemma raw_boxes_never_read_witness :
  exists s1' s2' drawn,
    Tracker.track label_one_box ([[5%Q]], [((0, 0), (10, 10))])
      tracker_after_one_frame = Some (s1', drawn) /\
    Tracker.track label_one_box ([[5%Q]], []) tracker_after_one_frame
      = Some (s2', drawn) /\
    Tracker.vehicles s2' = Tracker.vehicles s1'.
Proof.
  destruct (Tracker.track label_one_box ([[5%Q]], [((0, 0), (10, 10))])
              tracker_after_one_frame) as [[s1' drawn]|] eqn:E;
    [|vm_compute in E; discriminate E].
  destruct (raw_boxes_never_read label_one_box [[5%Q]]
              [((0, 0), (10, 10))] [] tracker_after_one_frame
              tracker_after_one_frame s1' drawn (conj eq_refl eq_refl) E)
    as (s2' & E2 & Esame & _).
  exists s1', s2', drawn. split; [reflexivity|]. split; [exact E2|].
  rewrite Esame. reflexivity.
Defined.

